(** * tensorboard/data/provider.py: the data-provider contract

    A shallow embedding of [tensorboard/data/provider.py]: the abstract
    [DataProvider] class, the six value classes ([Run], [ScalarTimeSeries],
    [ScalarDatum], [BlobSequenceTimeSeries], [BlobReference],
    [BlobSequenceDatum]) with their hand-written [__eq__] and [__hash__],
    and [RunTagFilter].

    Python is dynamically typed, so the slots of the value classes range
    over a universe [pyval] holding the values their docstrings mention
    (None, bool, int, float, str, bytes, tuples, and instances of the value
    classes themselves).  Comparisons follow Python 3: [!=] is the negation
    of [==], a [float] is an IEEE binary64 number (so NaN differs from
    itself), and [bool], [int] and [float] compare by numeric value.
    Values are compared by content: the identity shortcut that tuple
    comparison takes for one and the same object is not modelled.  A [str]
    is held as the bytes of its UTF-8 encoding. *)

From Stdlib Require Import ZArith Floats Ascii.
From stdpp Require Import base option list strings gmap.

Local Open Scope Z_scope.

(** ** Exceptions and results *)

Inductive exn : Type :=
| AttributeError
| TypeError
| NotFound.

Inductive result (A : Type) : Type :=
| Ok (a : A)
| Raise (e : exn).
Arguments Ok {A} a.
Arguments Raise {A} e.

Definition raises {A : Type} (r : result A) : bool :=
  match r with Ok _ => false | Raise _ => true end.

(** ** The slots of the value classes

    One record per class, fields named after the class's [__slots__], over
    an arbitrary type [V] of slot values.  [_TimeSeries] is the common
    superclass of [ScalarTimeSeries] (which adds no slot) and
    [BlobSequenceTimeSeries] (which adds [_latest_max_index]). *)

Module Run.
Record t (V : Type) : Type :=
  { _run_id : V; _run_name : V; _start_time : V }.
Arguments Build_t {V}.
Arguments _run_id {V}.
Arguments _run_name {V}.
Arguments _start_time {V}.
End Run.

Module _TimeSeries.
Record t (V : Type) : Type :=
  { _max_step : V;
    _max_wall_time : V;
    _plugin_content : V;
    _description : V;
    _display_name : V }.
Arguments Build_t {V}.
Arguments _max_step {V}.
Arguments _max_wall_time {V}.
Arguments _plugin_content {V}.
Arguments _description {V}.
Arguments _display_name {V}.
End _TimeSeries.

Module ScalarTimeSeries.
Record t (V : Type) : Type :=
  { base : _TimeSeries.t V }.
Arguments Build_t {V}.
Arguments base {V}.
End ScalarTimeSeries.

Module ScalarDatum.
Record t (V : Type) : Type :=
  { _step : V; _wall_time : V; _value : V }.
Arguments Build_t {V}.
Arguments _step {V}.
Arguments _wall_time {V}.
Arguments _value {V}.
End ScalarDatum.

Module BlobSequenceTimeSeries.
Record t (V : Type) : Type :=
  { base : _TimeSeries.t V; _latest_max_index : V }.
Arguments Build_t {V}.
Arguments base {V}.
Arguments _latest_max_index {V}.
End BlobSequenceTimeSeries.

Module BlobReference.
Record t (V : Type) : Type :=
  { _url : V; _blob_key : V }.
Arguments Build_t {V}.
Arguments _url {V}.
Arguments _blob_key {V}.
End BlobReference.

Module BlobSequenceDatum.
Record t (V : Type) : Type :=
  { _step : V; _wall_time : V; _values : V }.
Arguments Build_t {V}.
Arguments _step {V}.
Arguments _wall_time {V}.
Arguments _values {V}.
End BlobSequenceDatum.

(** ** Python values *)

#[local] Unset Elimination Schemes.
Inductive pyval : Type :=
| VNone
| VBool (b : bool)
| VInt (n : Z)
| VFloat (f : float)
| VStr (s : string)
| VBytes (bs : list Byte.byte)
| VTuple (items : list pyval)
| VRun (o : Run.t pyval)
| VScalarTimeSeries (o : ScalarTimeSeries.t pyval)
| VScalarDatum (o : ScalarDatum.t pyval)
| VBlobSequenceTimeSeries (o : BlobSequenceTimeSeries.t pyval)
| VBlobReference (o : BlobReference.t pyval)
| VBlobSequenceDatum (o : BlobSequenceDatum.t pyval).
#[local] Set Elimination Schemes.

(** The concrete class of a value, [type(v).__name__]. *)
Definition type_name (v : pyval) : string :=
  match v with
  | VNone => "NoneType"
  | VBool _ => "bool"
  | VInt _ => "int"
  | VFloat _ => "float"
  | VStr _ => "str"
  | VBytes _ => "bytes"
  | VTuple _ => "tuple"
  | VRun _ => "Run"
  | VScalarTimeSeries _ => "ScalarTimeSeries"
  | VScalarDatum _ => "ScalarDatum"
  | VBlobSequenceTimeSeries _ => "BlobSequenceTimeSeries"
  | VBlobReference _ => "BlobReference"
  | VBlobSequenceDatum _ => "BlobSequenceDatum"
  end.

(** The instances of the six value classes of the module. *)
Definition is_value_object (v : pyval) : bool :=
  match v with
  | VRun _ | VScalarTimeSeries _ | VScalarDatum _
  | VBlobSequenceTimeSeries _ | VBlobReference _ | VBlobSequenceDatum _ => true
  | _ => false
  end.

(** The built-in values that hold no other value. *)
Definition is_atom (v : pyval) : bool :=
  match v with
  | VNone | VBool _ | VInt _ | VFloat _ | VStr _ | VBytes _ => true
  | _ => false
  end.

(** The slot values of an instance of a value class, in the order in which
    the [__eq__] and the [__hash__] of the class visit them. *)
Definition fields (v : pyval) : list pyval :=
  match v with
  | VRun o => [Run._run_id o; Run._run_name o; Run._start_time o]
  | VScalarTimeSeries o =>
      let s := ScalarTimeSeries.base o in
      [_TimeSeries._max_step s; _TimeSeries._max_wall_time s;
       _TimeSeries._plugin_content s; _TimeSeries._description s;
       _TimeSeries._display_name s]
  | VScalarDatum o =>
      [ScalarDatum._step o; ScalarDatum._wall_time o; ScalarDatum._value o]
  | VBlobSequenceTimeSeries o =>
      let s := BlobSequenceTimeSeries.base o in
      [_TimeSeries._max_step s; _TimeSeries._max_wall_time s;
       BlobSequenceTimeSeries._latest_max_index o;
       _TimeSeries._plugin_content s; _TimeSeries._description s;
       _TimeSeries._display_name s]
  | VBlobReference o => [BlobReference._blob_key o; BlobReference._url o]
  | VBlobSequenceDatum o =>
      [BlobSequenceDatum._step o; BlobSequenceDatum._wall_time o;
       BlobSequenceDatum._values o]
  | _ => []
  end.

(** ** [==] on the built-in values *)

(** An int against a float: Python compares the exact numeric values. *)
Definition int_eq_float (n : Z) (f : float) : bool :=
  match Prim2SF f with
  | S754_zero _ => n =? 0
  | S754_infinity _ => false
  | S754_nan => false
  | S754_finite s m e =>
      let v := if s then Z.neg m else Z.pos m in
      if 0 <=? e then n =? v * 2 ^ e else n * 2 ^ (- e) =? v
  end.

Definition bytes_eqb (a b : list Byte.byte) : bool :=
  bool_decide (map Byte.to_nat a = map Byte.to_nat b).

(** [a == b] when neither side is a tuple or an instance of a value class.
    [bool] is a subclass of [int]; [str] and [bytes] never compare equal. *)
Definition atom_eq (a b : pyval) : bool :=
  match a, b with
  | VNone, VNone => true
  | VBool x, VBool y => Z.b2z x =? Z.b2z y
  | VBool x, VInt n => Z.b2z x =? n
  | VInt n, VBool y => n =? Z.b2z y
  | VInt n, VInt m => n =? m
  | VBool x, VFloat f => int_eq_float (Z.b2z x) f
  | VFloat f, VBool y => int_eq_float (Z.b2z y) f
  | VInt n, VFloat f => int_eq_float n f
  | VFloat f, VInt n => int_eq_float n f
  | VFloat f, VFloat g => PrimFloat.eqb f g
  | VStr s, VStr t => bool_decide (s = t)
  | VBytes x, VBytes y => bytes_eqb x y
  | _, _ => false
  end.

(** ** The [__eq__] methods of the value classes

    Each method first tests [isinstance(other, C)] and then compares the
    slots one by one with [!=], returning [False] at the first difference.
    [ne] is the interpreter's [!=] on slot values. *)

Section ValueClassEq.
Variable ne : pyval -> pyval -> bool.

Definition Run__eq__ (self : Run.t pyval) (other : pyval) : bool :=
  match other with
  | VRun other =>
      if ne (Run._run_id self) (Run._run_id other) then false
      else if ne (Run._run_name self) (Run._run_name other) then false
      else if ne (Run._start_time self) (Run._start_time other) then false
      else true
  | _ => false
  end.

Definition ScalarTimeSeries__eq__
    (self : ScalarTimeSeries.t pyval) (other : pyval) : bool :=
  match other with
  | VScalarTimeSeries other =>
      let s := ScalarTimeSeries.base self in
      let o := ScalarTimeSeries.base other in
      if ne (_TimeSeries._max_step s) (_TimeSeries._max_step o) then false
      else if ne (_TimeSeries._max_wall_time s) (_TimeSeries._max_wall_time o)
      then false
      else if ne (_TimeSeries._plugin_content s) (_TimeSeries._plugin_content o)
      then false
      else if ne (_TimeSeries._description s) (_TimeSeries._description o)
      then false
      else if ne (_TimeSeries._display_name s) (_TimeSeries._display_name o)
      then false
      else true
  | _ => false
  end.

Definition ScalarDatum__eq__
    (self : ScalarDatum.t pyval) (other : pyval) : bool :=
  match other with
  | VScalarDatum other =>
      if ne (ScalarDatum._step self) (ScalarDatum._step other) then false
      else if ne (ScalarDatum._wall_time self) (ScalarDatum._wall_time other)
      then false
      else if ne (ScalarDatum._value self) (ScalarDatum._value other)
      then false
      else true
  | _ => false
  end.

Definition BlobSequenceTimeSeries__eq__
    (self : BlobSequenceTimeSeries.t pyval) (other : pyval) : bool :=
  match other with
  | VBlobSequenceTimeSeries other =>
      let s := BlobSequenceTimeSeries.base self in
      let o := BlobSequenceTimeSeries.base other in
      if ne (_TimeSeries._max_step s) (_TimeSeries._max_step o) then false
      else if ne (_TimeSeries._max_wall_time s) (_TimeSeries._max_wall_time o)
      then false
      else if ne (BlobSequenceTimeSeries._latest_max_index self)
                 (BlobSequenceTimeSeries._latest_max_index other)
      then false
      else if ne (_TimeSeries._plugin_content s) (_TimeSeries._plugin_content o)
      then false
      else if ne (_TimeSeries._description s) (_TimeSeries._description o)
      then false
      else if ne (_TimeSeries._display_name s) (_TimeSeries._display_name o)
      then false
      else true
  | _ => false
  end.

Definition BlobReference__eq__
    (self : BlobReference.t pyval) (other : pyval) : bool :=
  match other with
  | VBlobReference other =>
      if ne (BlobReference._blob_key self) (BlobReference._blob_key other)
      then false
      else if ne (BlobReference._url self) (BlobReference._url other)
      then false
      else true
  | _ => false
  end.

Definition BlobSequenceDatum__eq__
    (self : BlobSequenceDatum.t pyval) (other : pyval) : bool :=
  match other with
  | VBlobSequenceDatum other =>
      if ne (BlobSequenceDatum._step self) (BlobSequenceDatum._step other)
      then false
      else if ne (BlobSequenceDatum._wall_time self)
                 (BlobSequenceDatum._wall_time other)
      then false
      else if ne (BlobSequenceDatum._values self)
                 (BlobSequenceDatum._values other)
      then false
      else true
  | _ => false
  end.

End ValueClassEq.

(** ** The interpreter's [==] and [!=]

    [a == b] runs [type(a).__eq__(a, b)].  For an instance of a value class
    that is the method above, which always answers.  A built-in on the left
    answers for built-ins; against an instance of a value class it returns
    [NotImplemented], the reflected method of the instance finds that the
    built-in is no instance of its class, and the result is [False].
    Tuples are equal when they have the same length and equal items. *)

Fixpoint items_eq (eq : pyval -> pyval -> bool) (xs ys : list pyval)
    {struct xs} : bool :=
  match xs, ys with
  | [], [] => true
  | x :: xs', y :: ys' => eq x y && items_eq eq xs' ys'
  | _, _ => false
  end.

Fixpoint py_eq (a b : pyval) {struct a} : bool :=
  match a with
  | VTuple xs =>
      match b with
      | VTuple ys => items_eq py_eq xs ys
      | _ => false
      end
  | VRun o => Run__eq__ (fun x y => negb (py_eq x y)) o b
  | VScalarTimeSeries o =>
      ScalarTimeSeries__eq__ (fun x y => negb (py_eq x y)) o b
  | VScalarDatum o => ScalarDatum__eq__ (fun x y => negb (py_eq x y)) o b
  | VBlobSequenceTimeSeries o =>
      BlobSequenceTimeSeries__eq__ (fun x y => negb (py_eq x y)) o b
  | VBlobReference o => BlobReference__eq__ (fun x y => negb (py_eq x y)) o b
  | VBlobSequenceDatum o =>
      BlobSequenceDatum__eq__ (fun x y => negb (py_eq x y)) o b
  | _ => atom_eq a b
  end.

Definition py_ne (a b : pyval) : bool := negb (py_eq a b).

(** A value that is, or holds in a slot or tuple item, a NaN float. *)
Fixpoint has_nan (v : pyval) : bool :=
  match v with
  | VFloat f => is_nan f
  | VTuple xs => existsb has_nan xs
  | VRun o =>
      has_nan (Run._run_id o) || has_nan (Run._run_name o)
      || has_nan (Run._start_time o)
  | VScalarTimeSeries o =>
      let s := ScalarTimeSeries.base o in
      has_nan (_TimeSeries._max_step s) || has_nan (_TimeSeries._max_wall_time s)
      || has_nan (_TimeSeries._plugin_content s)
      || has_nan (_TimeSeries._description s)
      || has_nan (_TimeSeries._display_name s)
  | VScalarDatum o =>
      has_nan (ScalarDatum._step o) || has_nan (ScalarDatum._wall_time o)
      || has_nan (ScalarDatum._value o)
  | VBlobSequenceTimeSeries o =>
      let s := BlobSequenceTimeSeries.base o in
      has_nan (_TimeSeries._max_step s) || has_nan (_TimeSeries._max_wall_time s)
      || has_nan (BlobSequenceTimeSeries._latest_max_index o)
      || has_nan (_TimeSeries._plugin_content s)
      || has_nan (_TimeSeries._description s)
      || has_nan (_TimeSeries._display_name s)
  | VBlobReference o =>
      has_nan (BlobReference._blob_key o) || has_nan (BlobReference._url o)
  | VBlobSequenceDatum o =>
      has_nan (BlobSequenceDatum._step o)
      || has_nan (BlobSequenceDatum._wall_time o)
      || has_nan (BlobSequenceDatum._values o)
  | _ => false
  end.

(** ** The [__hash__] methods of the value classes

    Each [__hash__] returns [hash((slot, ..., slot))].  The built-in [hash]
    is the interpreter's, not this module's: [hash_impl] holds its value on
    the built-in atoms and the way it combines the hashes of the items of a
    tuple into the hash of the tuple. *)

Record hash_impl : Type :=
  { builtin_hash : pyval -> Z;
    tuple_hash : list Z -> Z }.

Section ValueClassHash.
Variable hash : pyval -> Z.
Variable combine : list Z -> Z.

Definition hash_tuple (items : list pyval) : Z := combine (map hash items).

Definition Run__hash__ (self : Run.t pyval) : Z :=
  hash_tuple [Run._run_id self; Run._run_name self; Run._start_time self].

Definition ScalarTimeSeries__hash__ (self : ScalarTimeSeries.t pyval) : Z :=
  let s := ScalarTimeSeries.base self in
  hash_tuple
    [_TimeSeries._max_step s;
     _TimeSeries._max_wall_time s;
     _TimeSeries._plugin_content s;
     _TimeSeries._description s;
     _TimeSeries._display_name s].

Definition ScalarDatum__hash__ (self : ScalarDatum.t pyval) : Z :=
  hash_tuple
    [ScalarDatum._step self; ScalarDatum._wall_time self;
     ScalarDatum._value self].

Definition BlobSequenceTimeSeries__hash__
    (self : BlobSequenceTimeSeries.t pyval) : Z :=
  let s := BlobSequenceTimeSeries.base self in
  hash_tuple
    [_TimeSeries._max_step s;
     _TimeSeries._max_wall_time s;
     BlobSequenceTimeSeries._latest_max_index self;
     _TimeSeries._plugin_content s;
     _TimeSeries._description s;
     _TimeSeries._display_name s].

Definition BlobReference__hash__ (self : BlobReference.t pyval) : Z :=
  hash_tuple [BlobReference._blob_key self; BlobReference._url self].

Definition BlobSequenceDatum__hash__ (self : BlobSequenceDatum.t pyval) : Z :=
  hash_tuple
    [BlobSequenceDatum._step self; BlobSequenceDatum._wall_time self;
     BlobSequenceDatum._values self].

End ValueClassHash.

(** The interpreter's [hash(v)]: the class's [__hash__] for an instance of
    a value class, the combination of the item hashes for a tuple, and the
    built-in hash for an atom. *)
Fixpoint py_hash (H : hash_impl) (v : pyval) {struct v} : Z :=
  match v with
  | VTuple xs => tuple_hash H (map (py_hash H) xs)
  | VRun o => Run__hash__ (py_hash H) (tuple_hash H) o
  | VScalarTimeSeries o =>
      ScalarTimeSeries__hash__ (py_hash H) (tuple_hash H) o
  | VScalarDatum o => ScalarDatum__hash__ (py_hash H) (tuple_hash H) o
  | VBlobSequenceTimeSeries o =>
      BlobSequenceTimeSeries__hash__ (py_hash H) (tuple_hash H) o
  | VBlobReference o => BlobReference__hash__ (py_hash H) (tuple_hash H) o
  | VBlobSequenceDatum o =>
      BlobSequenceDatum__hash__ (py_hash H) (tuple_hash H) o
  | _ => builtin_hash H v
  end.

(** The rule of the Python data model for the built-in types: atoms that
    compare equal have the same hash. *)
Definition builtin_hash_consistent (H : hash_impl) : Prop :=
  forall a b : pyval, atom_eq a b = true -> builtin_hash H a = builtin_hash H b.

(** The integer that a float equals, if any. *)
Definition float_int_value (f : float) : option Z :=
  match Prim2SF f with
  | S754_zero _ => Some 0
  | S754_finite s m e =>
      let v := if s then Z.neg m else Z.pos m in
      if 0 <=? e then Some (v * 2 ^ e)
      else if v mod 2 ^ (- e) =? 0 then Some (v / 2 ^ (- e))
      else None
  | _ => None
  end.

(** A hash in the style of CPython, as an example of a [hash_impl]: a
    number hashes to its integer value when it has one, a string or a
    bytestring to its length, and a tuple to a polynomial in the hashes of
    its items. *)
Definition sample_hash : hash_impl :=
  {| builtin_hash v :=
       match v with
       | VBool b => Z.b2z b
       | VInt n => n
       | VFloat f => default 0 (float_int_value f)
       | VStr s => Z.of_nat (String.length s)
       | VBytes bs => Z.of_nat (length bs)
       | _ => 0
       end;
     tuple_hash hs := fold_right (fun h acc => h + 31 * acc) 17 hs |}.

(** ** Constructors and properties of the value classes

    Every [__init__] stores its arguments in the slots and nothing else;
    every property returns its slot. *)

Definition Run__init__ (run_id run_name start_time : pyval)
    : result (Run.t pyval) :=
  Ok {| Run._run_id := run_id;
        Run._run_name := run_name;
        Run._start_time := start_time |}.

Definition Run_run_id (self : Run.t pyval) : pyval := Run._run_id self.
Definition Run_run_name (self : Run.t pyval) : pyval := Run._run_name self.
Definition Run_start_time (self : Run.t pyval) : pyval := Run._start_time self.

Definition _TimeSeries__init__
    (max_step max_wall_time plugin_content description display_name : pyval)
    : result (_TimeSeries.t pyval) :=
  Ok {| _TimeSeries._max_step := max_step;
        _TimeSeries._max_wall_time := max_wall_time;
        _TimeSeries._plugin_content := plugin_content;
        _TimeSeries._description := description;
        _TimeSeries._display_name := display_name |}.

Definition _TimeSeries_max_step (self : _TimeSeries.t pyval) : pyval :=
  _TimeSeries._max_step self.
Definition _TimeSeries_max_wall_time (self : _TimeSeries.t pyval) : pyval :=
  _TimeSeries._max_wall_time self.
Definition _TimeSeries_plugin_content (self : _TimeSeries.t pyval) : pyval :=
  _TimeSeries._plugin_content self.
Definition _TimeSeries_description (self : _TimeSeries.t pyval) : pyval :=
  _TimeSeries._description self.
Definition _TimeSeries_display_name (self : _TimeSeries.t pyval) : pyval :=
  _TimeSeries._display_name self.

(** [ScalarTimeSeries] defines no [__init__]: it inherits the one of
    [_TimeSeries]. *)
Definition ScalarTimeSeries__init__
    (max_step max_wall_time plugin_content description display_name : pyval)
    : result (ScalarTimeSeries.t pyval) :=
  match _TimeSeries__init__
          max_step max_wall_time plugin_content description display_name with
  | Ok b => Ok {| ScalarTimeSeries.base := b |}
  | Raise e => Raise e
  end.

Definition ScalarDatum__init__ (step wall_time value : pyval)
    : result (ScalarDatum.t pyval) :=
  Ok {| ScalarDatum._step := step;
        ScalarDatum._wall_time := wall_time;
        ScalarDatum._value := value |}.

Definition ScalarDatum_step (self : ScalarDatum.t pyval) : pyval :=
  ScalarDatum._step self.
Definition ScalarDatum_wall_time (self : ScalarDatum.t pyval) : pyval :=
  ScalarDatum._wall_time self.
Definition ScalarDatum_value (self : ScalarDatum.t pyval) : pyval :=
  ScalarDatum._value self.

(** [BlobSequenceTimeSeries.__init__] calls the [__init__] of the
    superclass and then stores [latest_max_index]. *)
Definition BlobSequenceTimeSeries__init__
    (max_step max_wall_time latest_max_index plugin_content description
     display_name : pyval)
    : result (BlobSequenceTimeSeries.t pyval) :=
  match _TimeSeries__init__
          max_step max_wall_time plugin_content description display_name with
  | Ok b =>
      Ok {| BlobSequenceTimeSeries.base := b;
            BlobSequenceTimeSeries._latest_max_index := latest_max_index |}
  | Raise e => Raise e
  end.

Definition BlobSequenceTimeSeries_latest_max_index
    (self : BlobSequenceTimeSeries.t pyval) : pyval :=
  BlobSequenceTimeSeries._latest_max_index self.

(** [url] is a keyword argument with default [None]. *)
Definition BlobReference__init__ (blob_key : pyval) (url : option pyval)
    : result (BlobReference.t pyval) :=
  Ok {| BlobReference._blob_key := blob_key;
        BlobReference._url := default VNone url |}.

Definition BlobReference_blob_key (self : BlobReference.t pyval) : pyval :=
  BlobReference._blob_key self.
Definition BlobReference_url (self : BlobReference.t pyval) : pyval :=
  BlobReference._url self.

Definition BlobSequenceDatum__init__ (step wall_time values : pyval)
    : result (BlobSequenceDatum.t pyval) :=
  Ok {| BlobSequenceDatum._step := step;
        BlobSequenceDatum._wall_time := wall_time;
        BlobSequenceDatum._values := values |}.

Definition BlobSequenceDatum_step (self : BlobSequenceDatum.t pyval) : pyval :=
  BlobSequenceDatum._step self.
Definition BlobSequenceDatum_wall_time
    (self : BlobSequenceDatum.t pyval) : pyval :=
  BlobSequenceDatum._wall_time self.
Definition BlobSequenceDatum_values
    (self : BlobSequenceDatum.t pyval) : pyval :=
  BlobSequenceDatum._values self.

(** The key format that the docstring of [BlobReference] asks of producers:
    a non-empty string of the unreserved characters of RFC 3986,
    [[a-zA-Z0-9._~-]]. *)
Definition unreserved (c : ascii) : bool :=
  let n := nat_of_ascii c in
  ((97 <=? n) && (n <=? 122))%nat || ((65 <=? n) && (n <=? 90))%nat
  || ((48 <=? n) && (n <=? 57))%nat
  || bool_decide (c = "."%char) || bool_decide (c = "_"%char)
  || bool_decide (c = "~"%char) || bool_decide (c = "-"%char).

Definition valid_blob_key (k : pyval) : bool :=
  match k with
  | VStr s =>
      negb (bool_decide (s = EmptyString))
      && forallb unreserved (String.list_ascii_of_string s)
  | _ => false
  end.

(** ** RunTagFilter

    [__init__] stores [None] for an argument that is [None] and
    [frozenset(arg)] otherwise; the arguments are collections of strings,
    read in iteration order. *)

Record RunTagFilter : Type :=
  { _runs : option (gset string);
    _tags : option (gset string) }.

Definition frozenset (items : list string) : gset string := list_to_set items.

Definition RunTagFilter__init__ (runs tags : option (list string))
    : RunTagFilter :=
  {| _runs := match runs with None => None | Some r => Some (frozenset r) end;
     _tags := match tags with None => None | Some t => Some (frozenset t) end |}.

(** Two constructor arguments that name the same set of strings: both
    [None], or collections with the same elements, in any order and with
    any multiplicity. *)
Definition same_elements (a b : option (list string)) : Prop :=
  match a, b with
  | None, None => True
  | Some l, Some l' => forall x : string, x ∈ l <-> x ∈ l'
  | _, _ => False
  end.

Definition RunTagFilter_runs (self : RunTagFilter) : option (gset string) :=
  _runs self.
Definition RunTagFilter_tags (self : RunTagFilter) : option (gset string) :=
  _tags self.

(** ** Classes: namespaces, method resolution, abstract methods

    A class is its name, its base (the module uses single inheritance
    only) and the namespace of its body.  [DataProvider] has the metaclass
    [abc.ABCMeta], which records the abstract methods of a class when the
    class is created and makes instantiation fail while any is left. *)

Inductive member : Type :=
| Method (abstract : bool)
| Property
| Slot
| Attribute.

#[local] Unset Elimination Schemes.
Inductive pyclass : Type :=
| Class (name : string) (base : option pyclass) (namespace : gmap string member).
#[local] Set Elimination Schemes.

Definition class_name (c : pyclass) : string :=
  match c with Class name _ _ => name end.

Definition is_abstract (m : member) : bool :=
  match m with Method true => true | _ => false end.

(** Attribute lookup on a class, along the method resolution order: the
    name of the class whose body defines [name], and the member found. *)
Fixpoint resolve (c : pyclass) (name : string) : option (string * member) :=
  match c with
  | Class cname base namespace =>
      match namespace !! name with
      | Some m => Some (cname, m)
      | None =>
          match base with
          | Some b => resolve b name
          | None => None
          end
      end
  end.

(** The names of the classes of the method resolution order. *)
Fixpoint mro (c : pyclass) : list string :=
  match c with
  | Class cname base _ =>
      cname :: match base with Some b => mro b | None => [] end
  end.

(** [getattr(getattr(cls, name, None), "__isabstractmethod__", False)]. *)
Definition isabstractmethod (c : pyclass) (name : string) : bool :=
  match resolve c name with
  | Some (_, m) => is_abstract m
  | None => false
  end.

(** [ABCMeta.__new__]: the abstract names of the own namespace, and the
    abstract names of the base that still resolve to an abstract member. *)
Fixpoint abstractmethods (c : pyclass) : gset string :=
  match c with
  | Class _ base namespace =>
      dom (filter (fun kv => is_abstract kv.2 = true) namespace)
      ∪ match base with
        | Some b =>
            filter (fun name => isabstractmethod c name = true)
                   (abstractmethods b)
        | None => ∅
        end
  end.

(** [object.__new__] raises [TypeError] for a class with abstract methods
    left; otherwise the call yields an instance (here: the class name). *)
Definition instantiate (c : pyclass) : result string :=
  if bool_decide (abstractmethods c = ∅) then Ok (class_name c)
  else Raise TypeError.

(** Attribute lookup on an instance whose own attributes are
    [instance_attrs]: a property or a slot of the class comes first, then
    the attributes of the instance, then the other members of the class;
    [AttributeError] when neither the instance nor a class of the
    resolution order has the name. *)
Inductive attribute : Type :=
| InstanceAttribute
| ClassMember (owner : string) (m : member).

Definition getattr (c : pyclass) (instance_attrs : gset string) (name : string)
    : result attribute :=
  match resolve c name with
  | Some (owner, Property) => Ok (ClassMember owner Property)
  | Some (owner, Slot) => Ok (ClassMember owner Slot)
  | found =>
      if bool_decide (name ∈ instance_attrs) then Ok InstanceAttribute
      else match found with
           | Some (owner, m) => Ok (ClassMember owner m)
           | None => Raise AttributeError
           end
  end.

Definition namespace_of (l : list (string * member)) : gmap string member :=
  list_to_map l.

(** The members of the built-in [object] that instances inherit. *)
Definition object_class : pyclass :=
  Class "object" None
    (namespace_of
       [("__class__", Attribute); ("__doc__", Attribute);
        ("__new__", Method false); ("__init__", Method false);
        ("__eq__", Method false); ("__ne__", Method false);
        ("__lt__", Method false); ("__le__", Method false);
        ("__gt__", Method false); ("__ge__", Method false);
        ("__hash__", Method false); ("__repr__", Method false);
        ("__str__", Method false); ("__format__", Method false);
        ("__getattribute__", Method false); ("__setattr__", Method false);
        ("__delattr__", Method false); ("__dir__", Method false);
        ("__sizeof__", Method false); ("__reduce__", Method false);
        ("__reduce_ex__", Method false);
        ("__init_subclass__", Method false);
        ("__subclasshook__", Method false)]).

(** *** DataProvider *)

Definition DataProvider_class : pyclass :=
  Class "DataProvider" (Some object_class)
    (namespace_of
       [("data_location", Method false);
        ("list_runs", Method true);
        ("list_scalars", Method true);
        ("read_scalars", Method true);
        ("list_tensors", Method false);
        ("read_tensors", Method false);
        ("list_blob_sequences", Method false);
        ("read_blob_sequences", Method false);
        ("read_blob", Method false)]).

(** The bodies that [DataProvider] itself gives to its methods. *)
Definition DataProvider_data_location (experiment_id : pyval) : result pyval :=
  Ok (VStr EmptyString).

Definition DataProvider_list_runs (experiment_id : pyval) : result pyval :=
  Ok VNone.

Definition DataProvider_list_scalars
    (experiment_id plugin_name : pyval) (run_tag_filter : option RunTagFilter)
    : result pyval :=
  Ok VNone.

Definition DataProvider_read_scalars
    (experiment_id plugin_name : pyval) (downsample : option pyval)
    (run_tag_filter : option RunTagFilter) : result pyval :=
  Ok VNone.

Definition DataProvider_list_tensors : result pyval := Ok VNone.

Definition DataProvider_read_tensors : result pyval := Ok VNone.

Definition DataProvider_list_blob_sequences
    (experiment_id plugin_name : pyval) (run_tag_filter : option RunTagFilter)
    : result pyval :=
  Ok VNone.

Definition DataProvider_read_blob_sequences
    (experiment_id plugin_name : pyval) (downsample : option pyval)
    (run_tag_filter : option RunTagFilter) : result pyval :=
  Ok VNone.

Definition DataProvider_read_blob (blob_key : pyval) : result pyval := Ok VNone.

(** A backend: a class whose base is [DataProvider]. *)
Definition backend_class (name : string) (namespace : gmap string member)
    : pyclass :=
  Class name (Some DataProvider_class) namespace.

(** A class at the end of a chain of subclasses of [root]: [bases] lists
    the classes between it and [root], the nearest base first, each with
    its name and the namespace of its body. *)
Fixpoint subclass_chain
    (root : pyclass) (bases : list (string * gmap string member)) : pyclass :=
  match bases with
  | [] => root
  | (name, namespace) :: rest =>
      Class name (Some (subclass_chain root rest)) namespace
  end.

(** A backend in general: a class that has [DataProvider] among its bases,
    directly ([bases] empty, as [backend_class]) or through the classes
    [bases]. *)
Definition backend_under
    (bases : list (string * gmap string member))
    (name : string) (namespace : gmap string member) : pyclass :=
  Class name (Some (subclass_chain DataProvider_class bases)) namespace.

(** The six data operations of the interface. *)
Definition data_operations : list string :=
  ["list_runs"; "list_scalars"; "read_scalars";
   "list_blob_sequences"; "read_blob_sequences"; "read_blob"].

(** *** The classes of the value objects and of the filter *)

Definition Run_class : pyclass :=
  Class "Run" (Some object_class)
    (namespace_of
       [("__slots__", Attribute);
        ("_run_id", Slot); ("_run_name", Slot); ("_start_time", Slot);
        ("__init__", Method false);
        ("run_id", Property); ("run_name", Property);
        ("start_time", Property);
        ("__eq__", Method false); ("__hash__", Method false);
        ("__repr__", Method false)]).

Definition _TimeSeries_class : pyclass :=
  Class "_TimeSeries" (Some object_class)
    (namespace_of
       [("__slots__", Attribute);
        ("_max_step", Slot); ("_max_wall_time", Slot);
        ("_plugin_content", Slot); ("_description", Slot);
        ("_display_name", Slot);
        ("__init__", Method false);
        ("max_step", Property); ("max_wall_time", Property);
        ("plugin_content", Property); ("description", Property);
        ("display_name", Property)]).

Definition ScalarTimeSeries_class : pyclass :=
  Class "ScalarTimeSeries" (Some _TimeSeries_class)
    (namespace_of
       [("__eq__", Method false); ("__hash__", Method false);
        ("__repr__", Method false)]).

Definition ScalarDatum_class : pyclass :=
  Class "ScalarDatum" (Some object_class)
    (namespace_of
       [("__slots__", Attribute);
        ("_step", Slot); ("_wall_time", Slot); ("_value", Slot);
        ("__init__", Method false);
        ("step", Property); ("wall_time", Property); ("value", Property);
        ("__eq__", Method false); ("__hash__", Method false);
        ("__repr__", Method false)]).

Definition BlobSequenceTimeSeries_class : pyclass :=
  Class "BlobSequenceTimeSeries" (Some _TimeSeries_class)
    (namespace_of
       [("__slots__", Attribute); ("_latest_max_index", Slot);
        ("__init__", Method false);
        ("latest_max_index", Property);
        ("__eq__", Method false); ("__hash__", Method false);
        ("__repr__", Method false)]).

Definition BlobReference_class : pyclass :=
  Class "BlobReference" (Some object_class)
    (namespace_of
       [("__slots__", Attribute); ("_url", Slot); ("_blob_key", Slot);
        ("__init__", Method false);
        ("blob_key", Property); ("url", Property);
        ("__eq__", Method false); ("__hash__", Method false);
        ("__repr__", Method false)]).

Definition BlobSequenceDatum_class : pyclass :=
  Class "BlobSequenceDatum" (Some object_class)
    (namespace_of
       [("__slots__", Attribute);
        ("_step", Slot); ("_wall_time", Slot); ("_values", Slot);
        ("__init__", Method false);
        ("step", Property); ("wall_time", Property); ("values", Property);
        ("__eq__", Method false); ("__hash__", Method false);
        ("__repr__", Method false)]).

Definition RunTagFilter_class : pyclass :=
  Class "RunTagFilter" (Some object_class)
    (namespace_of
       [("__init__", Method false);
        ("runs", Property); ("tags", Property);
        ("__repr__", Method false)]).

(** The attributes that [RunTagFilter.__init__] sets on the instance. *)
Definition RunTagFilter_instance_attrs : gset string :=
  {["_runs"; "_tags"]}.

(** The class of an instance of a value class. *)
Definition value_class (v : pyval) : option pyclass :=
  match v with
  | VRun _ => Some Run_class
  | VScalarTimeSeries _ => Some ScalarTimeSeries_class
  | VScalarDatum _ => Some ScalarDatum_class
  | VBlobSequenceTimeSeries _ => Some BlobSequenceTimeSeries_class
  | VBlobReference _ => Some BlobReference_class
  | VBlobSequenceDatum _ => Some BlobSequenceDatum_class
  | _ => None
  end.

(** [isinstance(v, c)] for an instance of a value class: [c] is in the
    resolution order of the class of [v]. *)
Definition isinstance (v : pyval) (c : pyclass) : bool :=
  match value_class v with
  | Some vc => bool_decide (class_name c ∈ mro vc)
  | None => false
  end.

(** ** The filter predicate and a reference backend

    The source declares the data operations of [DataProvider] without a
    body of their own and gives [RunTagFilter] no method besides its two
    properties; what follows is written from the contract. *)

(** Modelled from the spec: the predicate [admits(run, tag)] of section 4.1,
    which [RunTagFilter] in the source does not define.  It is [True] iff
    ([runs is None] or [run in runs]) and ([tags is None] or
    [tag in tags]), read through the two properties of the filter. *)
Definition admits (f : RunTagFilter) (run tag : string) : bool :=
  match RunTagFilter_runs f with
  | None => true
  | Some runs => bool_decide (run ∈ runs)
  end
  &&
  match RunTagFilter_tags f with
  | None => true
  | Some tags => bool_decide (tag ∈ tags)
  end.

Module Backend.

(** Modelled from the spec: the ground truth of a concrete backend, which
    the source leaves to subclasses of [DataProvider].  Time series are
    keyed by experiment, plugin, run and tag, in this order. *)
Abbreviation store A :=
  (gmap string (gmap string (gmap string (gmap string A)))).

(** The nested map [d] with [d[run][tag]] that the operations return. *)
Abbreviation nested B := (gmap string (gmap string B)).

(** Modelled from the spec: the state of a backend, one ground truth for
    the scalar time series and one for the blob sequences, each series
    with its metadata and its points. *)
Record t : Type :=
  { scalars :
      store (ScalarTimeSeries.t pyval * list (ScalarDatum.t pyval));
    blob_sequences :
      store (BlobSequenceTimeSeries.t pyval
             * list (BlobSequenceDatum.t pyval)) }.

Definition entry {B : Type} (d : nested B) (run tag : string) : option B :=
  tags ← d !! run; tags !! tag.

(** The time series stored for [(run, tag)] under the experiment and the
    plugin, if any. *)
Definition series {A : Type}
    (s : store A) (experiment_id plugin_name run tag : string) : option A :=
  plugins ← s !! experiment_id;
  runs ← plugins !! plugin_name;
  entry runs run tag.

(** Data for [(run, tag)] exists for the experiment and the plugin. *)
Definition has_data {A : Type}
    (s : store A) (experiment_id plugin_name run tag : string) : Prop :=
  is_Some (series s experiment_id plugin_name run tag).

(** Modelled from the spec: an omitted [run_tag_filter] includes all runs
    and tags; a given one includes the pairs it admits. *)
Definition passes (run_tag_filter : option RunTagFilter) (run tag : string)
    : bool :=
  match run_tag_filter with
  | None => true
  | Some f => admits f run tag
  end.

(** Modelled from the spec: the filter restricts the ground truth of one
    plugin to the pairs that pass; a run left without a tag is absent
    (absence of a key means that there is no such data). *)
Definition restrict {A : Type}
    (run_tag_filter : option RunTagFilter) (truth : nested A) : nested A :=
  map_imap
    (fun run tags =>
       let kept := filter (fun kv => passes run_tag_filter run kv.1 = true) tags in
       if decide (kept = ∅) then None else Some kept)
    truth.

(** Modelled from the spec: a listing or reading operation.  An unknown
    experiment raises [NotFound]; otherwise the restricted ground truth of
    the plugin is returned, each series seen through [view]. *)
Definition query {A B : Type} (view : A -> B) (s : store A)
    (experiment_id plugin_name : string)
    (run_tag_filter : option RunTagFilter) : result (nested B) :=
  match s !! experiment_id with
  | None => Raise NotFound
  | Some plugins =>
      Ok ((fun tags : gmap string A => view <$> tags)
            <$> restrict run_tag_filter (default ∅ (plugins !! plugin_name)))
  end.

(** The downsampling strategy is the backend's choice: a function from
    the cap and the points of a series to the points returned. *)
Abbreviation strategy := (forall D : Type, nat -> list D -> list D).

(** Modelled from the spec: the four operations of section 4.3 that return
    nested maps.  The listing operations return the metadata of each
    series, the reading operations its points after downsampling. *)
Definition list_scalars (b : t)
    (experiment_id plugin_name : string)
    (run_tag_filter : option RunTagFilter)
    : result (nested (ScalarTimeSeries.t pyval)) :=
  query fst (scalars b) experiment_id plugin_name run_tag_filter.

Definition read_scalars (sample : strategy) (b : t)
    (experiment_id plugin_name : string) (downsample : nat)
    (run_tag_filter : option RunTagFilter)
    : result (nested (list (ScalarDatum.t pyval))) :=
  query (fun series => sample _ downsample series.2)
    (scalars b) experiment_id plugin_name run_tag_filter.

Definition list_blob_sequences (b : t)
    (experiment_id plugin_name : string)
    (run_tag_filter : option RunTagFilter)
    : result (nested (BlobSequenceTimeSeries.t pyval)) :=
  query fst (blob_sequences b) experiment_id plugin_name run_tag_filter.

Definition read_blob_sequences (sample : strategy) (b : t)
    (experiment_id plugin_name : string) (downsample : nat)
    (run_tag_filter : option RunTagFilter)
    : result (nested (list (BlobSequenceDatum.t pyval))) :=
  query (fun series => sample _ downsample series.2)
    (blob_sequences b) experiment_id plugin_name run_tag_filter.

(** A strategy that keeps the first points up to the cap. *)
Definition keep_first : strategy := fun D cap points => take cap points.

(** The scenario of the contract: experiment [exp1] has the run [train]
    with the scalar tag [loss] at the steps 0, 1, 2 with the values 1.0,
    0.5, 0.25, recorded by the plugin [scalars]. *)
Definition loss_points : list (ScalarDatum.t pyval) :=
  [ScalarDatum.Build_t (VInt 0) (VFloat 100) (VFloat 1);
   ScalarDatum.Build_t (VInt 1) (VFloat 101) (VFloat 0.5);
   ScalarDatum.Build_t (VInt 2) (VFloat 102) (VFloat 0.25)].

Definition loss_series : ScalarTimeSeries.t pyval :=
  ScalarTimeSeries.Build_t
    (_TimeSeries.Build_t
       (VInt 2) (VFloat 102) (VBytes []) (VStr EmptyString)
       (VStr EmptyString)).

Definition exp1 : t :=
  {| scalars :=
       {["exp1" :=
           {["scalars" := {["train" := {["loss" := (loss_series, loss_points)]}]}]}]};
     blob_sequences := {["exp1" := ∅]} |}.

(** What the contract asks of an operation [op] over the ground truth [s]:
    a filter never makes the operation fail; every entry of a result is
    backed by data and passes the filter; and the result is the part of
    the unfiltered result that passes the filter. *)
Definition only_narrows {A B : Type}
    (op : option RunTagFilter -> result (nested B)) (s : store A)
    (experiment_id plugin_name : string) : Prop :=
  forall run_tag_filter : option RunTagFilter,
    raises (op run_tag_filter) = raises (op None)
    /\ forall d : nested B,
         op run_tag_filter = Ok d ->
         (forall run tag : string,
            is_Some (entry d run tag) ->
            has_data s experiment_id plugin_name run tag
            /\ passes run_tag_filter run tag = true)
         /\ (exists d0 : nested B,
               op None = Ok d0
               /\ forall (run tag : string) (v : B),
                    entry d run tag = Some v
                    <-> entry d0 run tag = Some v
                        /\ passes run_tag_filter run tag = true)
         /\ (forall run : string, d !! run <> Some ∅).

End Backend.

(** ** The [__repr__] methods

    Every [__repr__] formats the class name and, between parentheses, the
    slots as [name=%r], joined by a comma and a space.  [%r] is the
    interpreter's [repr]; [repr] below is its value on slot values. *)

Section ValueClassRepr.
Variable repr : pyval -> string.

Definition Run__repr__ (self : Run.t pyval) : string :=
  "Run(" +:+
  String.concat ", "
    ["run_id=" +:+ repr (Run._run_id self);
     "run_name=" +:+ repr (Run._run_name self);
     "start_time=" +:+ repr (Run._start_time self)]
  +:+ ")".

Definition ScalarTimeSeries__repr__ (self : ScalarTimeSeries.t pyval)
    : string :=
  let s := ScalarTimeSeries.base self in
  "ScalarTimeSeries(" +:+
  String.concat ", "
    ["max_step=" +:+ repr (_TimeSeries._max_step s);
     "max_wall_time=" +:+ repr (_TimeSeries._max_wall_time s);
     "plugin_content=" +:+ repr (_TimeSeries._plugin_content s);
     "description=" +:+ repr (_TimeSeries._description s);
     "display_name=" +:+ repr (_TimeSeries._display_name s)]
  +:+ ")".

Definition ScalarDatum__repr__ (self : ScalarDatum.t pyval) : string :=
  "ScalarDatum(" +:+
  String.concat ", "
    ["step=" +:+ repr (ScalarDatum._step self);
     "wall_time=" +:+ repr (ScalarDatum._wall_time self);
     "value=" +:+ repr (ScalarDatum._value self)]
  +:+ ")".

Definition BlobSequenceTimeSeries__repr__
    (self : BlobSequenceTimeSeries.t pyval) : string :=
  let s := BlobSequenceTimeSeries.base self in
  "BlobSequenceTimeSeries(" +:+
  String.concat ", "
    ["max_step=" +:+ repr (_TimeSeries._max_step s);
     "max_wall_time=" +:+ repr (_TimeSeries._max_wall_time s);
     "latest_max_index="
       +:+ repr (BlobSequenceTimeSeries._latest_max_index self);
     "plugin_content=" +:+ repr (_TimeSeries._plugin_content s);
     "description=" +:+ repr (_TimeSeries._description s);
     "display_name=" +:+ repr (_TimeSeries._display_name s)]
  +:+ ")".

Definition BlobReference__repr__ (self : BlobReference.t pyval) : string :=
  "BlobReference(" +:+
  String.concat ", "
    ["blob_key=" +:+ repr (BlobReference._blob_key self);
     "url=" +:+ repr (BlobReference._url self)]
  +:+ ")".

Definition BlobSequenceDatum__repr__ (self : BlobSequenceDatum.t pyval)
    : string :=
  "BlobSequenceDatum(" +:+
  String.concat ", "
    ["step=" +:+ repr (BlobSequenceDatum._step self);
     "wall_time=" +:+ repr (BlobSequenceDatum._wall_time self);
     "values=" +:+ repr (BlobSequenceDatum._values self)]
  +:+ ")".

End ValueClassRepr.

(** The [repr] of a tuple, from the [repr] of its items; a tuple of one
    item is written with a trailing comma. *)
Definition tuple_repr (items : list string) : string :=
  match items with
  | [item] => "(" +:+ item +:+ ",)"
  | _ => "(" +:+ String.concat ", " items +:+ ")"
  end.

(** The interpreter's [repr(v)]: the class's [__repr__] for an instance of
    a value class; [atom_repr] is the [repr] of the built-in atoms. *)
Fixpoint py_repr (atom_repr : pyval -> string) (v : pyval) {struct v}
    : string :=
  match v with
  | VTuple xs => tuple_repr (map (py_repr atom_repr) xs)
  | VRun o => Run__repr__ (py_repr atom_repr) o
  | VScalarTimeSeries o => ScalarTimeSeries__repr__ (py_repr atom_repr) o
  | VScalarDatum o => ScalarDatum__repr__ (py_repr atom_repr) o
  | VBlobSequenceTimeSeries o =>
      BlobSequenceTimeSeries__repr__ (py_repr atom_repr) o
  | VBlobReference o => BlobReference__repr__ (py_repr atom_repr) o
  | VBlobSequenceDatum o => BlobSequenceDatum__repr__ (py_repr atom_repr) o
  | _ => atom_repr v
  end.

(** [RunTagFilter.__repr__]; [set_repr] is the interpreter's [repr] of
    [None] and of a frozenset. *)
Definition RunTagFilter__repr__
    (set_repr : option (gset string) -> string) (self : RunTagFilter)
    : string :=
  "RunTagFilter(" +:+
  String.concat ", "
    ["runs=" +:+ set_repr (_runs self); "tags=" +:+ set_repr (_tags self)]
  +:+ ")".

(** The public names of the fields of a value object, in the order of
    [fields]: the parameters of the constructor of its class. *)
Definition field_names (v : pyval) : list string :=
  match v with
  | VRun _ => ["run_id"; "run_name"; "start_time"]
  | VScalarTimeSeries _ =>
      ["max_step"; "max_wall_time"; "plugin_content"; "description";
       "display_name"]
  | VScalarDatum _ => ["step"; "wall_time"; "value"]
  | VBlobSequenceTimeSeries _ =>
      ["max_step"; "max_wall_time"; "latest_max_index"; "plugin_content";
       "description"; "display_name"]
  | VBlobReference _ => ["blob_key"; "url"]
  | VBlobSequenceDatum _ => ["step"; "wall_time"; "values"]
  | _ => []
  end.

(** The integer mantissa of a finite float with its sign. *)
Definition signed (s : bool) (m : positive) : Z :=
  if s then Z.neg m else Z.pos m.

(** ** Assignment to attributes

    [obj.name = value] runs [object.__setattr__]: a property or a slot
    found on the class decides (the properties of the module have no
    setter, so they refuse; a slot stores the value); otherwise the value
    goes to the [__dict__] of the instance, which exists when some class
    of the resolution order below [object] declares no [__slots__].
    Three names belong to the interpreter, which decides by the value
    assigned: [__class__] always, and [__dict__] and [__weakref__] on an
    instance that has a [__dict__]; [setattr] gives no answer for them. *)

Fixpoint has_dict (c : pyclass) : bool :=
  match c with
  | Class _ None _ => false
  | Class _ (Some b) namespace =>
      negb (bool_decide (is_Some (namespace !! "__slots__"))) || has_dict b
  end.

Definition interpreter_managed (c : pyclass) (name : string) : bool :=
  bool_decide (name = "__class__")
  || (has_dict c
      && (bool_decide (name = "__dict__")
          || bool_decide (name = "__weakref__"))).

Inductive stored : Type :=
| InSlot (owner : string)
| InDict.

Definition setattr (c : pyclass) (name : string) : option (result stored) :=
  if interpreter_managed c name then None
  else
    Some
      match resolve c name with
      | Some (_, Property) => Raise AttributeError
      | Some (owner, Slot) => Ok (InSlot owner)
      | _ => if has_dict c then Ok InDict else Raise AttributeError
      end.

(** The assignment goes through. *)
Definition accepted (r : option (result stored)) : bool :=
  match r with Some (Ok _) => true | _ => false end.

(** The assignment raises [AttributeError]. *)
Definition refused (r : option (result stored)) : bool :=
  match r with Some (Raise AttributeError) => true | _ => false end.

(** ** Iteration of the arguments of [RunTagFilter]

    [frozenset(arg)] iterates its argument.  A set yields each of its
    elements once, in some order.  A [str] yields its characters, each a
    [str] of length one.  A [str] is a sequence of code points; it is held
    here as the bytes of its UTF-8 encoding, in which a character is a
    leading byte followed by the continuation bytes that belong to it. *)








Definition iterates (stored : option (gset string))
    (arg : option (list string)) : Prop :=
  match stored, arg with
  | None, None => True
  | Some s, Some l => NoDup l /\ forall x : string, x ∈ l <-> x ∈ s
  | _, _ => False
  end.

(** * Properties *)

(** ** Induction on Python values *)

Section pyval_ind.
Variable P : pyval -> Prop.
Hypothesis Hatom : forall v, is_atom v = true -> P v.
Hypothesis Htuple : forall xs, Forall P xs -> P (VTuple xs).
Hypothesis Hobject :
  forall v, is_value_object v = true -> Forall P (fields v) -> P v.

Fixpoint pyval_ind (v : pyval) : P v :=
  match v with
  | VTuple xs =>
      Htuple xs
        ((fix items (l : list pyval) : Forall P l :=
            match l with
            | [] => @List.Forall_nil _ P
            | x :: l' => @List.Forall_cons _ P x l' (pyval_ind x) (items l')
            end) xs)
  | VRun o =>
      Hobject (VRun o) eq_refl
        (@List.Forall_cons _ P _ _ (pyval_ind (Run._run_id o))
        (@List.Forall_cons _ P _ _ (pyval_ind (Run._run_name o))
        (@List.Forall_cons _ P _ _ (pyval_ind (Run._start_time o))
        (@List.Forall_nil _ P))))
  | VScalarTimeSeries o =>
      let s := ScalarTimeSeries.base o in
      Hobject (VScalarTimeSeries o) eq_refl
        (@List.Forall_cons _ P _ _ (pyval_ind (_TimeSeries._max_step s))
        (@List.Forall_cons _ P _ _ (pyval_ind (_TimeSeries._max_wall_time s))
        (@List.Forall_cons _ P _ _ (pyval_ind (_TimeSeries._plugin_content s))
        (@List.Forall_cons _ P _ _ (pyval_ind (_TimeSeries._description s))
        (@List.Forall_cons _ P _ _ (pyval_ind (_TimeSeries._display_name s))
        (@List.Forall_nil _ P))))))
  | VScalarDatum o =>
      Hobject (VScalarDatum o) eq_refl
        (@List.Forall_cons _ P _ _ (pyval_ind (ScalarDatum._step o))
        (@List.Forall_cons _ P _ _ (pyval_ind (ScalarDatum._wall_time o))
        (@List.Forall_cons _ P _ _ (pyval_ind (ScalarDatum._value o))
        (@List.Forall_nil _ P))))
  | VBlobSequenceTimeSeries o =>
      let s := BlobSequenceTimeSeries.base o in
      Hobject (VBlobSequenceTimeSeries o) eq_refl
        (@List.Forall_cons _ P _ _ (pyval_ind (_TimeSeries._max_step s))
        (@List.Forall_cons _ P _ _ (pyval_ind (_TimeSeries._max_wall_time s))
        (@List.Forall_cons _ P _ _ (pyval_ind (BlobSequenceTimeSeries._latest_max_index o))
        (@List.Forall_cons _ P _ _ (pyval_ind (_TimeSeries._plugin_content s))
        (@List.Forall_cons _ P _ _ (pyval_ind (_TimeSeries._description s))
        (@List.Forall_cons _ P _ _ (pyval_ind (_TimeSeries._display_name s))
        (@List.Forall_nil _ P)))))))
  | VBlobReference o =>
      Hobject (VBlobReference o) eq_refl
        (@List.Forall_cons _ P _ _ (pyval_ind (BlobReference._blob_key o))
        (@List.Forall_cons _ P _ _ (pyval_ind (BlobReference._url o))
        (@List.Forall_nil _ P)))
  | VBlobSequenceDatum o =>
      Hobject (VBlobSequenceDatum o) eq_refl
        (@List.Forall_cons _ P _ _ (pyval_ind (BlobSequenceDatum._step o))
        (@List.Forall_cons _ P _ _ (pyval_ind (BlobSequenceDatum._wall_time o))
        (@List.Forall_cons _ P _ _ (pyval_ind (BlobSequenceDatum._values o))
        (@List.Forall_nil _ P))))
  | VNone => Hatom VNone eq_refl
  | VBool b => Hatom (VBool b) eq_refl
  | VInt n => Hatom (VInt n) eq_refl
  | VFloat f => Hatom (VFloat f) eq_refl
  | VStr s => Hatom (VStr s) eq_refl
  | VBytes bs => Hatom (VBytes bs) eq_refl
  end.

End pyval_ind.

(** ** Equality of value objects *)

Lemma items_eq_Forall2 (eq : pyval -> pyval -> bool) (xs ys : list pyval) :
  items_eq eq xs ys = true <-> Forall2 (fun x y => eq x y = true) xs ys.
Proof.
  revert ys. induction xs as [|x xs IH]; intros [|y ys]; simpl.
  - split; [constructor | reflexivity].
  - split; [discriminate | inversion 1].
  - split; [discriminate | inversion 1].
  - rewrite andb_true_iff, IH. split.
    + intros [? ?]. by constructor.
    + inversion 1; subst. by split.
Qed.

Lemma py_eq_tuple (xs ys : list pyval) :
  py_eq (VTuple xs) (VTuple ys) = true
  <-> Forall2 (fun x y => py_eq x y = true) xs ys.
Proof. apply items_eq_Forall2. Qed.

(** Two instances of one value class compare equal exactly when their
    slots compare equal pairwise. *)
Lemma py_eq_fields (a b : pyval) :
  is_value_object a = true -> type_name a = type_name b ->
  py_eq a b = true
  <-> Forall2 (fun x y => py_eq x y = true) (fields a) (fields b).
Proof.
  intros Ha Hty.
  destruct a; try discriminate Ha; destruct b; try discriminate Hty; simpl;
    cbv [Run__eq__ ScalarTimeSeries__eq__ ScalarDatum__eq__
         BlobSequenceTimeSeries__eq__ BlobReference__eq__
         BlobSequenceDatum__eq__];
    repeat match goal with
           | |- context [negb (py_eq ?x ?y)] =>
               let E := fresh "E" in destruct (py_eq x y) eqn:E; simpl
           end;
    (split;
     [ intros; try discriminate; repeat constructor; assumption
     | intros HF; repeat (inversion HF as [|? ? ? ? ? HF']; subst; clear HF;
                          rename HF' into HF); congruence ]).
Qed.

Lemma atom_eq_self (v : pyval) :
  is_atom v = true -> atom_eq v v = negb (has_nan v).
Proof.
  destruct v; try discriminate; intros _; simpl.
  - reflexivity.
  - apply Z.eqb_refl.
  - apply Z.eqb_refl.
  - unfold is_nan. by rewrite negb_involutive.
  - by apply bool_decide_eq_true.
  - unfold bytes_eqb. by apply bool_decide_eq_true.
Qed.

Lemma items_eq_self (xs : list pyval) :
  Forall (fun v => py_eq v v = negb (has_nan v)) xs ->
  items_eq py_eq xs xs = negb (existsb has_nan xs).
Proof.
  induction 1 as [|x xs Hx _ IH]; simpl; [reflexivity|].
  by rewrite Hx, IH, negb_orb.
Qed.

(** A value compares equal to itself unless it is, or holds, a NaN. *)
Lemma py_eq_self (v : pyval) : py_eq v v = negb (has_nan v).
Proof.
  induction v as [v Hv | xs IH | v Hv IH] using pyval_ind.
  - destruct v; try discriminate Hv; apply (atom_eq_self _ Hv).
  - simpl. by apply items_eq_self.
  - destruct v; try discriminate Hv; simpl in *;
      cbv [Run__eq__ ScalarTimeSeries__eq__ ScalarDatum__eq__
           BlobSequenceTimeSeries__eq__ BlobReference__eq__
           BlobSequenceDatum__eq__];
      repeat match goal with
             | H : Forall _ (_ :: _) |- _ =>
                 let E := fresh "E" in
                 apply Forall_cons in H; destruct H as [E H]; rewrite E
             end;
      repeat match goal with
             | |- context [has_nan ?x] => destruct (has_nan x); simpl
             end; reflexivity.
Qed.

(** An instance of a value class never equals a value of another type,
    whichever side it stands on. *)
Lemma py_eq_other_type (a b : pyval) :
  is_value_object a = true -> type_name a <> type_name b ->
  py_eq a b = false /\ py_eq b a = false.
Proof.
  intros Ha Hty.
  destruct a; try discriminate Ha; destruct b; simpl in *;
    try (exfalso; apply Hty; reflexivity); split; reflexivity.
Qed.

(** ** Hashing of value objects *)

Lemma atom_eq_is_atom (a b : pyval) :
  atom_eq a b = true -> is_atom a = true /\ is_atom b = true.
Proof. destruct a, b; simpl; intros; try discriminate; by split. Qed.

Lemma py_hash_atom (H : hash_impl) (v : pyval) :
  is_atom v = true -> py_hash H v = builtin_hash H v.
Proof. by destruct v. Qed.

Lemma py_eq_atom (a b : pyval) : is_atom a = true -> py_eq a b = atom_eq a b.
Proof. by destruct a. Qed.

Lemma map_py_hash_eq (H : hash_impl) (xs ys : list pyval) :
  Forall (fun a => forall b, py_eq a b = true -> py_hash H a = py_hash H b) xs ->
  Forall2 (fun x y => py_eq x y = true) xs ys ->
  map (py_hash H) xs = map (py_hash H) ys.
Proof.
  intros HF. revert ys.
  induction HF as [|x xs Hx _ IH]; intros ys H2; inversion H2; subst; simpl.
  - reflexivity.
  - f_equal; eauto.
Qed.

Lemma py_hash_fields (H : hash_impl) (v : pyval) :
  is_value_object v = true ->
  py_hash H v = tuple_hash H (map (py_hash H) (fields v)).
Proof. by destruct v. Qed.

(** Values that compare equal hash equal, once the built-in hash respects
    the equality of the built-in atoms. *)
Lemma py_eq_py_hash (H : hash_impl) :
  builtin_hash_consistent H ->
  forall a b : pyval, py_eq a b = true -> py_hash H a = py_hash H b.
Proof.
  intros HH a.
  induction a as [a Ha | xs IH | a Ha IH] using pyval_ind; intros b Hab.
  - rewrite (py_eq_atom _ _ Ha) in Hab.
    destruct (atom_eq_is_atom _ _ Hab) as [_ Hb].
    rewrite !py_hash_atom by assumption. by apply HH.
  - destruct b; try discriminate Hab.
    apply py_eq_tuple in Hab. simpl. f_equal. by apply map_py_hash_eq.
  - destruct (decide (type_name a = type_name b)) as [Hty|Hty].
    + assert (Hb : is_value_object b = true)
        by (destruct a; try discriminate Ha; destruct b; try discriminate Hty;
            reflexivity).
      apply (py_eq_fields _ _ Ha Hty) in Hab.
      rewrite !py_hash_fields by assumption.
      f_equal. by apply map_py_hash_eq.
    + destruct (py_eq_other_type _ _ Ha Hty) as [E _]. congruence.
Qed.

(** ** The sample hash respects the equality of atoms *)

Lemma int_eq_float_value (n : Z) (f : float) :
  int_eq_float n f = true -> float_int_value f = Some n.
Proof.
  unfold int_eq_float, float_int_value.
  destruct (Prim2SF f) as [s| s | |s m e]; try discriminate.
  - intros ->%Z.eqb_eq. reflexivity.
  - cbv zeta. destruct (0 <=? e) eqn:He.
    + intros ->%Z.eqb_eq. reflexivity.
    + intros Hn%Z.eqb_eq. apply Z.leb_gt in He.
      assert (Hp : 0 < 2 ^ (- e)) by (apply Z.pow_pos_nonneg; lia).
      rewrite <- Hn, Z.mod_mul, Z.div_mul by lia. reflexivity.
Qed.

Lemma float_eqb_int_value (f g : float) :
  PrimFloat.eqb f g = true -> float_int_value f = float_int_value g.
Proof.
  rewrite FloatAxioms.eqb_spec. unfold SFeqb, SFcompare, float_int_value.
  destruct (Prim2SF f) as [s| s | |s m e], (Prim2SF g) as [s'| s' | |s' m' e'];
    try discriminate; try reflexivity;
    try (destruct s; discriminate); try (destruct s'; discriminate).
  destruct s, s'; try discriminate;
    destruct (e ?= e') eqn:He; try discriminate;
    apply Z.compare_eq in He; subst e';
    destruct (Pos.compare_cont Eq m m') eqn:Hm; try discriminate;
    apply Pos.compare_eq in Hm; subst m'; reflexivity.
Qed.

Lemma sample_hash_consistent : builtin_hash_consistent sample_hash.
Proof.
  intros a b. destruct a, b; simpl; try discriminate; try reflexivity.
  - destruct b, b0; simpl; intros; try discriminate; reflexivity.
  - intros Hn%Z.eqb_eq. exact Hn.
  - intros Hf%int_eq_float_value. by rewrite Hf.
  - intros Hn%Z.eqb_eq. by symmetry.
  - intros Hn%Z.eqb_eq. exact Hn.
  - intros Hf%int_eq_float_value. by rewrite Hf.
  - intros Hf%int_eq_float_value. by rewrite Hf.
  - intros Hf%int_eq_float_value. by rewrite Hf.
  - intros Hf%float_eqb_int_value. by rewrite Hf.
  - intros Hs%bool_decide_eq_true. by subst.
  - unfold bytes_eqb. intros Hs%bool_decide_eq_true.
    apply (f_equal length) in Hs. rewrite !length_map in Hs. by rewrite Hs.
Qed.

Lemma fields_inj (a b : pyval) :
  is_value_object a = true -> type_name a = type_name b ->
  fields a = fields b -> a = b.
Proof.
  intros Ha Hty Hf.
  destruct a as [| | | | | | |o|o|o|o|o|o]; try discriminate Ha;
    destruct b as [| | | | | | |o'|o'|o'|o'|o'|o']; try discriminate Hty;
    destruct o, o'; simpl in Hf;
    repeat match goal with
           | b : _TimeSeries.t pyval |- _ => destruct b
           end;
    simpl in Hf; congruence.
Qed.

(** ** The claims about the value classes *)

(** C3, the statement as written fails: two [ScalarDatum] instances
    constructed with the identical field values [(1, 0.5, nan)] are not
    equal, because [__eq__] compares the slots with [!=] and a NaN differs
    from itself. *)
Lemma ScalarDatum_nan_not_equal :
  let d := ScalarDatum.Build_t (VInt 1) (VFloat 0.5) (VFloat nan) in
  ScalarDatum__init__ (VInt 1) (VFloat 0.5) (VFloat nan) = Ok d
  /\ fields (VScalarDatum d) = fields (VScalarDatum d)
  /\ py_eq (VScalarDatum d) (VScalarDatum d) = false.
Proof. repeat split. Qed.

(** C3, as amended: two instances of the same value class are equal iff
    all their corresponding fields compare equal under [==]; hence a pair
    of corresponding fields that compare unequal makes the instances
    unequal.  Two instances with identical field values are equal when no
    field value is or holds a NaN float, and unequal when a field value is
    a NaN float. *)
Theorem value_object_eq_fields (a b : pyval) :
  is_value_object a = true ->
  type_name a = type_name b ->
  (py_eq a b = true
   <-> Forall2 (fun x y => py_eq x y = true) (fields a) (fields b))
  /\ (forall (i : nat) (x y : pyval),
        fields a !! i = Some x -> fields b !! i = Some y ->
        py_eq x y = false -> py_eq a b = false)
  /\ (fields a = fields b -> has_nan a = false -> py_eq a b = true)
  /\ (fields a = fields b ->
      forall f : float,
        VFloat f ∈ fields a -> is_nan f = true -> py_eq a b = false).
Proof.
  intros Ha Hty. pose proof (py_eq_fields a b Ha Hty) as Hiff.
  split; [exact Hiff|]. split.
  - intros i x y Hx Hy Hne.
    destruct (py_eq a b) eqn:E; [|reflexivity].
    destruct Hiff as [Hall _]. specialize (Hall eq_refl).
    pose proof (Forall2_lookup_lr _ _ _ _ _ _ Hall Hx Hy). congruence.
  - split.
    + intros Hf Hnan. rewrite <- (fields_inj a b Ha Hty Hf), py_eq_self.
      by rewrite Hnan.
    + intros Hf f Hin Hnan.
      destruct (py_eq a b) eqn:E; [|reflexivity].
      destruct Hiff as [Hall _]. specialize (Hall eq_refl).
      rewrite <- Hf in Hall.
      apply list_elem_of_lookup in Hin as [i Hi].
      pose proof (Forall2_lookup_lr _ _ _ _ _ _ Hall Hi Hi) as Hxx.
      simpl in Hxx. unfold is_nan in Hnan.
      rewrite Hxx in Hnan. discriminate.
Qed.

Lemma value_object_eq_fields_witness :
  let a := VScalarDatum (ScalarDatum.Build_t (VInt 1) (VFloat 0.5) (VFloat 0.25)) in
  let b := VScalarDatum (ScalarDatum.Build_t (VInt 1) (VFloat 0.5) (VFloat 0.25)) in
  (py_eq a b = true
   <-> Forall2 (fun x y => py_eq x y = true) (fields a) (fields b))
  /\ (forall (i : nat) (x y : pyval),
        fields a !! i = Some x -> fields b !! i = Some y ->
        py_eq x y = false -> py_eq a b = false)
  /\ (fields a = fields b -> has_nan a = false -> py_eq a b = true)
  /\ (fields a = fields b ->
      forall f : float,
        VFloat f ∈ fields a -> is_nan f = true -> py_eq a b = false).
Proof.
  intros a b. apply (value_object_eq_fields a b); reflexivity.
Defined.

(** C4: for all instances [a] and [b] of the value classes, [a == b]
    implies [hash(a) == hash(b)], the hash of an instance being the hash
    of the tuple of the fields that [__eq__] compares; the built-in [hash]
    is any that gives equal atoms equal hashes. *)
Theorem value_object_eq_hash (H : hash_impl) (a b : pyval) :
  builtin_hash_consistent H ->
  is_value_object a = true ->
  is_value_object b = true ->
  py_eq a b = true ->
  py_hash H a = py_hash H b
  /\ py_hash H a = py_hash H (VTuple (fields a))
  /\ py_hash H b = py_hash H (VTuple (fields b)).
Proof.
  intros HH Ha Hb Hab. split; [by apply py_eq_py_hash|].
  split; by apply py_hash_fields.
Qed.

Lemma value_object_eq_hash_witness :
  let a := VBlobReference (BlobReference.Build_t VNone (VStr "key")) in
  let b := VBlobReference (BlobReference.Build_t VNone (VStr "key")) in
  py_hash sample_hash a = py_hash sample_hash b
  /\ py_hash sample_hash a = py_hash sample_hash (VTuple (fields a))
  /\ py_hash sample_hash b = py_hash sample_hash (VTuple (fields b)).
Proof.
  intros a b.
  apply (value_object_eq_hash sample_hash a b sample_hash_consistent);
    reflexivity.
Defined.

(** C10: an instance of one value class never equals an instance of
    another, whichever operand comes first: the [isinstance] test of
    [__eq__] fails and the method returns [False]. *)
Theorem value_object_ne_other_type (a b : pyval) (ca : pyclass) :
  value_class a = Some ca ->
  is_value_object b = true ->
  type_name a <> type_name b ->
  isinstance b ca = false /\ py_eq a b = false /\ py_eq b a = false.
Proof.
  intros Hca Hb Hty. split.
  - destruct a; try discriminate Hca; injection Hca as <-;
      destruct b; try discriminate Hb;
      solve [ exfalso; apply Hty; reflexivity | vm_compute; reflexivity ].
  - apply py_eq_other_type; [|exact Hty].
    by destruct a; try discriminate Hca.
Qed.

Lemma value_object_ne_other_type_witness :
  let s := _TimeSeries.Build_t (VInt 3) (VFloat 0.5) (VBytes []) (VStr "d") (VStr "n") in
  let a := VScalarTimeSeries (ScalarTimeSeries.Build_t s) in
  let b := VBlobSequenceTimeSeries (BlobSequenceTimeSeries.Build_t s (VInt 0)) in
  isinstance b ScalarTimeSeries_class = false
  /\ py_eq a b = false /\ py_eq b a = false.
Proof.
  intros s a b.
  apply (value_object_ne_other_type a b ScalarTimeSeries_class);
    [reflexivity | reflexivity | discriminate].
Defined.

(** C9: the constructors of the six value classes validate nothing: for
    arbitrary field values they return an instance, and every property of
    the instance returns the value passed for its field; an omitted [url]
    of a [BlobReference] is stored as [None]. *)
Theorem value_class_init_stores_fields :
  (forall run_id run_name start_time : pyval,
     exists o, Run__init__ run_id run_name start_time = Ok o
       /\ Run_run_id o = run_id /\ Run_run_name o = run_name
       /\ Run_start_time o = start_time)
  /\ (forall max_step max_wall_time plugin_content description display_name,
        exists o,
          ScalarTimeSeries__init__
            max_step max_wall_time plugin_content description display_name
          = Ok o
          /\ _TimeSeries_max_step (ScalarTimeSeries.base o) = max_step
          /\ _TimeSeries_max_wall_time (ScalarTimeSeries.base o) = max_wall_time
          /\ _TimeSeries_plugin_content (ScalarTimeSeries.base o)
             = plugin_content
          /\ _TimeSeries_description (ScalarTimeSeries.base o) = description
          /\ _TimeSeries_display_name (ScalarTimeSeries.base o) = display_name)
  /\ (forall step wall_time value : pyval,
        exists o, ScalarDatum__init__ step wall_time value = Ok o
          /\ ScalarDatum_step o = step /\ ScalarDatum_wall_time o = wall_time
          /\ ScalarDatum_value o = value)
  /\ (forall max_step max_wall_time latest_max_index plugin_content
             description display_name,
        exists o,
          BlobSequenceTimeSeries__init__
            max_step max_wall_time latest_max_index plugin_content
            description display_name
          = Ok o
          /\ _TimeSeries_max_step (BlobSequenceTimeSeries.base o) = max_step
          /\ _TimeSeries_max_wall_time (BlobSequenceTimeSeries.base o)
             = max_wall_time
          /\ BlobSequenceTimeSeries_latest_max_index o = latest_max_index
          /\ _TimeSeries_plugin_content (BlobSequenceTimeSeries.base o)
             = plugin_content
          /\ _TimeSeries_description (BlobSequenceTimeSeries.base o)
             = description
          /\ _TimeSeries_display_name (BlobSequenceTimeSeries.base o)
             = display_name)
  /\ (forall (blob_key : pyval) (url : option pyval),
        exists o, BlobReference__init__ blob_key url = Ok o
          /\ BlobReference_blob_key o = blob_key
          /\ BlobReference_url o
             = match url with Some u => u | None => VNone end)
  /\ (forall step wall_time values : pyval,
        exists o, BlobSequenceDatum__init__ step wall_time values = Ok o
          /\ BlobSequenceDatum_step o = step
          /\ BlobSequenceDatum_wall_time o = wall_time
          /\ BlobSequenceDatum_values o = values).
Proof.
  repeat split; intros; eexists; repeat split.
Qed.

(** C8, the statement as written fails: constructing a [BlobReference]
    with the empty string as key is not rejected. *)
Lemma BlobReference_empty_key_accepted :
  valid_blob_key (VStr EmptyString) = false
  /\ raises (BlobReference__init__ (VStr EmptyString) None) = false
  /\ BlobReference__init__ (VStr EmptyString) None
     = Ok (BlobReference.Build_t VNone (VStr EmptyString)).
Proof. repeat split. Qed.

(** C8, as amended: [BlobReference] accepts every key, valid or not (the
    empty string and a key with a character outside [[a-zA-Z0-9._~-]]
    included), and stores it unchanged; the key format is a requirement
    on the producers of keys that nothing in the module enforces. *)
Theorem BlobReference_init_no_validation :
  (forall (blob_key : pyval) (url : option pyval),
     raises (BlobReference__init__ blob_key url) = false
     /\ exists o, BlobReference__init__ blob_key url = Ok o
          /\ BlobReference_blob_key o = blob_key)
  /\ valid_blob_key (VStr EmptyString) = false
  /\ valid_blob_key (VStr "a/b") = false
  /\ valid_blob_key (VStr "run-1.blob_0~A") = true.
Proof.
  split; [|by vm_compute].
  intros blob_key url. split; [reflexivity|]. eexists. by split.
Qed.

(** ** The claims about [RunTagFilter] *)

Lemma frozenset_same_elements (l l' : list string) :
  (forall x : string, x ∈ l <-> x ∈ l') -> frozenset l = frozenset l'.
Proof.
  intros Hl. apply set_eq. intros x. unfold frozenset.
  by rewrite !elem_of_list_to_set.
Qed.

Lemma same_elements_remove_dups (l : list string) :
  same_elements (Some l) (Some (remove_dups l)).
Proof. intros x. by rewrite elem_of_remove_dups. Qed.

Lemma same_elements_Permutation (l l' : list string) :
  l ≡ₚ l' -> same_elements (Some l) (Some l').
Proof. intros Hp x. by rewrite Hp. Qed.

(** C6: order and multiplicity of the collections passed to
    [RunTagFilter] are irrelevant: two constructions from collections with
    the same elements (for instance a collection and its deduplication, or
    a permutation of it) have equal [runs] and equal [tags]; the stored
    set holds exactly the elements of the collection, and [None] is stored
    for an argument of [None], and only for it. *)
Theorem RunTagFilter_init_set (runs runs' tags tags' : option (list string)) :
  same_elements runs runs' ->
  same_elements tags tags' ->
  RunTagFilter_runs (RunTagFilter__init__ runs tags)
  = RunTagFilter_runs (RunTagFilter__init__ runs' tags')
  /\ RunTagFilter_tags (RunTagFilter__init__ runs tags)
     = RunTagFilter_tags (RunTagFilter__init__ runs' tags')
  /\ (RunTagFilter_runs (RunTagFilter__init__ runs tags) = None
      <-> runs = None)
  /\ (RunTagFilter_tags (RunTagFilter__init__ runs tags) = None
      <-> tags = None)
  /\ (forall l, runs = Some l ->
        exists s, RunTagFilter_runs (RunTagFilter__init__ runs tags) = Some s
                  /\ forall x : string, x ∈ s <-> x ∈ l)
  /\ (forall l, tags = Some l ->
        exists s, RunTagFilter_tags (RunTagFilter__init__ runs tags) = Some s
                  /\ forall x : string, x ∈ s <-> x ∈ l).
Proof.
  intros Hr Ht. repeat split.
  - destruct runs, runs'; simpl in *; try done.
    f_equal. by apply frozenset_same_elements.
  - destruct tags, tags'; simpl in *; try done.
    f_equal. by apply frozenset_same_elements.
  - by destruct runs.
  - by intros ->.
  - by destruct tags.
  - by intros ->.
  - intros l ->. eexists. split; [reflexivity|].
    intros x. unfold frozenset. by rewrite elem_of_list_to_set.
  - intros l ->. eexists. split; [reflexivity|].
    intros x. unfold frozenset. by rewrite elem_of_list_to_set.
Qed.

Lemma RunTagFilter_init_set_witness :
  RunTagFilter_runs
    (RunTagFilter__init__ (Some ["b"; "a"; "b"; "a"]) None)
  = RunTagFilter_runs
      (RunTagFilter__init__ (Some (remove_dups ["b"; "a"; "b"; "a"])) None).
Proof.
  apply (RunTagFilter_init_set
           (Some ["b"; "a"; "b"; "a"])
           (Some (remove_dups ["b"; "a"; "b"; "a"])) None None).
  - apply same_elements_remove_dups.
  - exact I.
Defined.

(** C1, the statement as written fails: [RunTagFilter] provides no
    operation [admits]; evaluating [f.admits] on a filter raises
    [AttributeError]. *)
Lemma RunTagFilter_admits_missing :
  getattr RunTagFilter_class RunTagFilter_instance_attrs "admits"
  = Raise AttributeError.
Proof. by vm_compute. Qed.

(** C1, as amended: [RunTagFilter] defines no [admits]; it exposes the two
    stored sets through the properties [runs] and [tags], and the test
    ([f.runs is None] or [run in f.runs]) and ([f.tags is None] or
    [tag in f.tags]) over them is a total function of the stored sets and
    the two strings.  It holds iff the run was passed to the constructor
    (or no runs were) and the tag was passed (or no tags were); in
    particular it holds for every run and tag when both arguments of the
    constructor are [None]. *)
Theorem RunTagFilter_membership_test :
  (forall name : string,
     name ∈ ["admits"; "__call__"; "__contains__"] ->
     getattr RunTagFilter_class RunTagFilter_instance_attrs name
     = Raise AttributeError)
  /\ getattr RunTagFilter_class RunTagFilter_instance_attrs "runs"
     = Ok (ClassMember "RunTagFilter" Property)
  /\ getattr RunTagFilter_class RunTagFilter_instance_attrs "tags"
     = Ok (ClassMember "RunTagFilter" Property)
  /\ (forall (runs tags : option (list string)) (run tag : string),
        admits (RunTagFilter__init__ runs tags) run tag = true
        <-> (runs = None \/ exists l, runs = Some l /\ run ∈ l)
            /\ (tags = None \/ exists l, tags = Some l /\ tag ∈ l))
  /\ (forall run tag : string,
        admits (RunTagFilter__init__ None None) run tag = true)
  /\ (forall tag : string,
        let f := RunTagFilter__init__ (Some ["a"; "b"]) None in
        admits f "a" tag = true /\ admits f "b" tag = true
        /\ admits f "c" tag = false).
Proof.
  split; [|split; [|split; [|split; [|split]]]].
  - intros name Hn. repeat (apply elem_of_cons in Hn as [->|Hn]);
      [by vm_compute..|by apply elem_of_nil in Hn].
  - by vm_compute.
  - by vm_compute.
  - intros runs tags run tag. unfold admits. simpl.
    rewrite andb_true_iff.
    assert (Hset : forall (o : option (list string)) (x : string),
      match match o with None => None | Some r => Some (frozenset r) end with
      | None => true
      | Some s => bool_decide (x ∈ s)
      end = true
      <-> o = None \/ exists l, o = Some l /\ x ∈ l).
    { intros [l|] x.
      - rewrite bool_decide_eq_true. unfold frozenset.
        rewrite elem_of_list_to_set. split.
        + intros Hx. right. by exists l.
        + intros [?|(l' & [= <-] & Hx)]; done.
      - split; [by left | done]. }
    by rewrite !Hset.
  - reflexivity.
  - intros tag f. by vm_compute.
Qed.

(** ** The claims about [DataProvider] *)

(** C7: the [data_location] that [DataProvider] defines returns the empty
    string for every experiment id and raises nothing; it is a concrete
    member, so a backend inherits it without having to override it. *)
Theorem DataProvider_data_location_empty :
  (forall experiment_id : pyval,
     DataProvider_data_location experiment_id = Ok (VStr EmptyString)
     /\ raises (DataProvider_data_location experiment_id) = false)
  /\ resolve DataProvider_class "data_location"
     = Some ("DataProvider", Method false).
Proof. split; [by intros|by vm_compute]. Qed.

Lemma abstractmethods_DataProvider :
  abstractmethods DataProvider_class
  = {["list_runs"; "list_scalars"; "read_scalars"]}.
Proof. by vm_compute. Qed.

Lemma DataProvider_resolve_abstract (op : string) :
  op ∈ ["list_runs"; "list_scalars"; "read_scalars"] ->
  resolve DataProvider_class op = Some ("DataProvider", Method true).
Proof.
  intros Hop. repeat (apply elem_of_cons in Hop as [->|Hop]);
    [by vm_compute..|by apply elem_of_nil in Hop].
Qed.

Lemma abstractmethods_unfold
    (name : string) (b : pyclass) (ns : gmap string member) :
  abstractmethods (Class name (Some b) ns)
  = dom (filter (fun kv => is_abstract kv.2 = true) ns)
    ∪ filter (fun n => isabstractmethod (Class name (Some b) ns) n = true)
        (abstractmethods b).
Proof. reflexivity. Qed.

Lemma resolve_unfold
    (name : string) (b : pyclass) (ns : gmap string member) (op : string) :
  resolve (Class name (Some b) ns) op
  = match ns !! op with
    | Some m => Some (name, m)
    | None => resolve b op
    end.
Proof. reflexivity. Qed.

(** The abstract methods of a subclass: its own abstract members, and the
    abstract methods of the base that it does not define itself. *)
Lemma abstractmethods_subclass
    (name : string) (b : pyclass) (ns : gmap string member) (op : string) :
  (forall n, n ∈ abstractmethods b -> isabstractmethod b n = true) ->
  op ∈ abstractmethods (Class name (Some b) ns)
  <-> (exists m, ns !! op = Some m /\ is_abstract m = true)
      \/ (op ∈ abstractmethods b /\ ns !! op = None).
Proof.
  intros Hb.
  rewrite abstractmethods_unfold, elem_of_union, elem_of_dom, elem_of_filter.
  unfold isabstractmethod at 1. rewrite resolve_unfold. split.
  - intros [[m Hm]|[Habs Hop]].
    + apply map_lookup_filter_Some in Hm as [Hm Ha]. left. by exists m.
    + destruct (ns !! op) as [m|] eqn:Hns.
      * left. by exists m.
      * right. by split.
  - intros [(m & Hm & Ha)|[Hop Hns]].
    + left. exists m. by apply map_lookup_filter_Some.
    + right. split; [|done]. rewrite Hns. by apply Hb.
Qed.

Lemma abstractmethods_backend (name : string) (ns : gmap string member)
    (op : string) :
  op ∈ abstractmethods (backend_class name ns)
  <-> (exists m, ns !! op = Some m /\ is_abstract m = true)
      \/ (op ∈ ["list_runs"; "list_scalars"; "read_scalars"]
          /\ ns !! op = None).
Proof.
  assert (Hin : forall n : string,
            n ∈ abstractmethods DataProvider_class
            <-> n ∈ ["list_runs"; "list_scalars"; "read_scalars"]).
  { intros n. rewrite abstractmethods_DataProvider.
    rewrite !elem_of_union, !elem_of_singleton, !elem_of_cons, elem_of_nil.
    tauto. }
  unfold backend_class. rewrite abstractmethods_subclass, Hin; [done|].
  intros n Hn%Hin. unfold isabstractmethod.
  by rewrite (DataProvider_resolve_abstract n Hn).
Qed.

Section pyclass_ind.
Variable P : pyclass -> Prop.
Hypothesis Hroot : forall name namespace, P (Class name None namespace).
Hypothesis Hsub :
  forall name b namespace, P b -> P (Class name (Some b) namespace).

Fixpoint pyclass_ind (c : pyclass) : P c :=
  match c with
  | Class name None namespace => Hroot name namespace
  | Class name (Some b) namespace => Hsub name b namespace (pyclass_ind b)
  end.

End pyclass_ind.

Lemma isabstractmethod_unfold
    (name : string) (b : pyclass) (ns : gmap string member) (op : string) :
  isabstractmethod (Class name (Some b) ns) op
  = match ns !! op with
    | Some m => is_abstract m
    | None => isabstractmethod b op
    end.
Proof.
  unfold isabstractmethod. rewrite resolve_unfold. by destruct (ns !! op).
Qed.

Lemma abstractmethods_resolve (c : pyclass) (op : string) :
  op ∈ abstractmethods c <-> isabstractmethod c op = true.
Proof.
  revert op. induction c as [name ns | name b ns IH] using pyclass_ind;
    intros op.
  - unfold isabstractmethod. simpl.
    rewrite elem_of_union, elem_of_dom. split.
    + intros [[m Hm]|Hin]; [|by apply not_elem_of_empty in Hin].
      apply map_lookup_filter_Some in Hm as [-> Ha]. exact Ha.
    + intros Ha. left. destruct (ns !! op) as [m|] eqn:Hns; [|discriminate].
      exists m. by apply map_lookup_filter_Some.
  - rewrite abstractmethods_subclass by (intros n; apply IH).
    rewrite isabstractmethod_unfold, IH.
    destruct (ns !! op) as [m|] eqn:Hns.
    + split; [|intros Ha; left; by exists m].
      intros [(m' & [= <-] & Ha)|[_ [=]]]. exact Ha.
    + split; [|intros Ha; right; by split].
      intros [(m' & [=] & _)|[Ha _]]. exact Ha.
Qed.

(** A name that no class of a chain defines resolves as in the root. *)
Lemma resolve_subclass_chain
    (root : pyclass) (bases : list (string * gmap string member))
    (op : string) :
  Forall (fun b => b.2 !! op = None) bases ->
  resolve (subclass_chain root bases) op = resolve root op.
Proof.
  induction 1 as [|[name ns] bases Hns _ IH]; [reflexivity|].
  simpl in Hns. cbn [subclass_chain]. by rewrite resolve_unfold, Hns.
Qed.

(** Along a chain that declares no abstract member, a name is abstract
    only if it is abstract in the root and no class of the chain defines
    it. *)
Lemma isabstractmethod_subclass_chain
    (root : pyclass) (bases : list (string * gmap string member))
    (op : string) :
  Forall (fun b => forall n m, b.2 !! n = Some m -> is_abstract m = false)
    bases ->
  isabstractmethod (subclass_chain root bases) op = true ->
  isabstractmethod root op = true
  /\ Forall (fun b => b.2 !! op = None) bases.
Proof.
  induction 1 as [|[name ns] bases Hns _ IH]; [by split|].
  simpl in Hns. cbn [subclass_chain]. rewrite isabstractmethod_unfold.
  destruct (ns !! op) as [m|] eqn:Hop.
  - rewrite (Hns _ _ Hop). discriminate.
  - intros [Hroot Hnone]%IH. split; [exact Hroot|]. by constructor.
Qed.

(** C2, the statement as written fails: a backend class that gives a body
    to [list_runs], [list_scalars] and [read_scalars] only, and to none of
    the three blob operations, can be instantiated. *)
Lemma backend_without_blob_methods_instantiates :
  let namespace :=
    namespace_of
      [("list_runs", Method false); ("list_scalars", Method false);
       ("read_scalars", Method false)] in
  namespace !! "list_blob_sequences" = None
  /\ namespace !! "read_blob_sequences" = None
  /\ namespace !! "read_blob" = None
  /\ instantiate (backend_class "ScalarsOnly" namespace) = Ok "ScalarsOnly".
Proof. by vm_compute. Qed.

(** C2, as amended: of the data operations only [list_runs],
    [list_scalars] and [read_scalars] are mandatory.  A backend class,
    deriving from [DataProvider] directly or through a chain of
    subclasses, cannot be instantiated when one of the three is defined
    neither by the class itself nor by a class between it and
    [DataProvider]; it can be instantiated when each of the three is
    defined by the class or by one of these bases (and none of them
    declares an abstract member of its own), whatever else it defines.
    [list_blob_sequences], [read_blob_sequences] and [read_blob], like
    [list_tensors] and [read_tensors], have a body in [DataProvider] that
    returns [None], which a backend inherits when neither it nor such a
    base overrides them. *)
Theorem DataProvider_mandatory_members
    (bases : list (string * gmap string member))
    (name : string) (namespace : gmap string member) :
  (forall op : string,
     op ∈ ["list_runs"; "list_scalars"; "read_scalars"] ->
     namespace !! op = None ->
     Forall (fun b => b.2 !! op = None) bases ->
     instantiate (backend_under bases name namespace) = Raise TypeError)
  /\ ((forall op m, namespace !! op = Some m -> is_abstract m = false) ->
      Forall (fun b => forall op m, b.2 !! op = Some m -> is_abstract m = false)
        bases ->
      (forall op : string,
         op ∈ ["list_runs"; "list_scalars"; "read_scalars"] ->
         is_Some (namespace !! op)
         \/ Exists (fun b => is_Some (b.2 !! op)) bases) ->
      instantiate (backend_under bases name namespace) = Ok name)
  /\ (forall op : string,
        op ∈ ["list_blob_sequences"; "read_blob_sequences"; "read_blob";
              "list_tensors"; "read_tensors"] ->
        namespace !! op = None ->
        Forall (fun b => b.2 !! op = None) bases ->
        resolve (backend_under bases name namespace) op
        = Some ("DataProvider", Method false))
  /\ (forall experiment_id plugin_name run_tag_filter,
        DataProvider_list_blob_sequences
          experiment_id plugin_name run_tag_filter = Ok VNone)
  /\ (forall experiment_id plugin_name downsample run_tag_filter,
        DataProvider_read_blob_sequences
          experiment_id plugin_name downsample run_tag_filter = Ok VNone)
  /\ (forall blob_key, DataProvider_read_blob blob_key = Ok VNone).
Proof.
  split; [|split; [|split; [|by repeat split]]].
  - intros op Hop Hns Hbases. unfold instantiate.
    rewrite bool_decide_eq_false_2; [reflexivity|].
    intros Hempty.
    assert (Hin : op ∈ abstractmethods (backend_under bases name namespace)).
    { apply abstractmethods_resolve. unfold backend_under.
      rewrite isabstractmethod_unfold, Hns. unfold isabstractmethod.
      rewrite (resolve_subclass_chain _ _ _ Hbases).
      by rewrite (DataProvider_resolve_abstract op Hop). }
    rewrite Hempty in Hin. by apply not_elem_of_empty in Hin.
  - intros Hconcrete Hbases Hthree. unfold instantiate.
    rewrite bool_decide_eq_true_2; [reflexivity|].
    apply set_eq. intros op. split;
      [|intros Hin; by apply not_elem_of_empty in Hin].
    intros Hin%abstractmethods_resolve. exfalso. revert Hin.
    unfold backend_under. rewrite isabstractmethod_unfold.
    destruct (namespace !! op) as [m|] eqn:Hns.
    { rewrite (Hconcrete _ _ Hns). discriminate. }
    intros [Hroot Hnone]%(isabstractmethod_subclass_chain _ _ _ Hbases).
    apply abstractmethods_resolve in Hroot.
    rewrite abstractmethods_DataProvider in Hroot.
    assert (Hop : op ∈ ["list_runs"; "list_scalars"; "read_scalars"]).
    { revert Hroot.
      rewrite !elem_of_union, !elem_of_singleton, !elem_of_cons, elem_of_nil.
      tauto. }
    destruct (Hthree op Hop) as [[m Hm]|Hex]; [congruence|].
    apply Exists_exists in Hex as (b & Hb & [m Hm]).
    rewrite Forall_forall in Hnone. specialize (Hnone b Hb). congruence.
  - intros op Hop Hns Hbases. unfold backend_under.
    rewrite resolve_unfold, Hns, (resolve_subclass_chain _ _ _ Hbases).
    repeat (apply elem_of_cons in Hop as [->|Hop]);
      [by vm_compute..|by apply elem_of_nil in Hop].
Qed.

Lemma DataProvider_mandatory_members_witness :
  let namespace :=
    namespace_of
      [("list_runs", Method false); ("list_scalars", Method false);
       ("read_scalars", Method false); ("read_blob", Method false)] in
  let reads_runs :=
    ("ReadsRuns", namespace_of [("list_runs", Method false)]) in
  let scalars :=
    namespace_of
      [("list_scalars", Method false); ("read_scalars", Method false)] in
  instantiate
    (backend_under [] "Partial" (delete "list_scalars" namespace))
  = Raise TypeError
  /\ instantiate (backend_under [] "Complete" namespace) = Ok "Complete"
  /\ resolve (backend_under [] "Complete" namespace) "list_blob_sequences"
     = Some ("DataProvider", Method false)
  /\ instantiate (backend_under [reads_runs] "ReadsScalars" scalars)
     = Ok "ReadsScalars"
  /\ instantiate
       (backend_under [reads_runs] "ReadsOne" (delete "read_scalars" scalars))
     = Raise TypeError.
Proof.
  assert (Hconcrete : forall (l : list (string * member)) op m,
            Forall (fun kv => is_abstract kv.2 = false) l ->
            namespace_of l !! op = Some m -> is_abstract m = false).
  { intros l op m Hl Hm. unfold namespace_of in Hm.
    apply elem_of_list_to_map_2 in Hm.
    rewrite Forall_forall in Hl. exact (Hl _ Hm). }
  intros namespace reads_runs scalars. split; [|split; [|split; [|split]]].
  - apply (DataProvider_mandatory_members
             [] "Partial" (delete "list_scalars" namespace))
      with (op := "list_scalars");
      [set_solver | by vm_compute | constructor].
  - apply (DataProvider_mandatory_members [] "Complete" namespace).
    + intros op m. apply Hconcrete. by repeat constructor.
    + constructor.
    + intros op Hop. left.
      repeat (apply elem_of_cons in Hop as [->|Hop]);
        [by eexists; vm_compute..|by apply elem_of_nil in Hop].
  - apply (DataProvider_mandatory_members [] "Complete" namespace)
      with (op := "list_blob_sequences");
      [set_solver | by vm_compute | constructor].
  - apply (DataProvider_mandatory_members [reads_runs] "ReadsScalars" scalars).
    + intros op m. apply Hconcrete. by repeat constructor.
    + constructor; [|constructor]. intros op m. apply Hconcrete.
      by repeat constructor.
    + intros op Hop.
      apply elem_of_cons in Hop as [->|Hop].
      { right. constructor. by eexists; vm_compute. }
      left. repeat (apply elem_of_cons in Hop as [->|Hop]);
        [by eexists; vm_compute..|by apply elem_of_nil in Hop].
  - apply (DataProvider_mandatory_members
             [reads_runs] "ReadsOne" (delete "read_scalars" scalars))
      with (op := "read_scalars");
      [set_solver | by vm_compute | ].
    constructor; [by vm_compute|constructor].
Defined.

(** ** The claim about the listing and reading operations *)

Section query.
Context {A B : Type} (view : A -> B).

Lemma restrict_entry
    (f : option RunTagFilter) (truth : gmap string (gmap string A))
    (run tag : string) (a : A) :
  Backend.entry (Backend.restrict f truth) run tag = Some a
  <-> Backend.entry truth run tag = Some a /\ Backend.passes f run tag = true.
Proof.
  unfold Backend.entry, Backend.restrict. rewrite map_lookup_imap.
  destruct (truth !! run) as [tags|] eqn:Hrun; simpl;
    [|split; [done | by intros [? _]]].
  case_decide as Hkept; simpl.
  - split; [done|]. intros [Ha Hp].
    assert (Hin : filter (fun kv => Backend.passes f run kv.1 = true) tags
                  !! tag = Some a)
      by by apply map_lookup_filter_Some.
    rewrite Hkept, lookup_empty in Hin. done.
  - by rewrite map_lookup_filter_Some.
Qed.

Lemma restrict_nonempty
    (f : option RunTagFilter) (truth : gmap string (gmap string A))
    (run : string) :
  Backend.restrict f truth !! run <> Some ∅.
Proof.
  unfold Backend.restrict. rewrite map_lookup_imap.
  destruct (truth !! run) as [tags|]; simpl; [|done].
  case_decide; congruence.
Qed.

Lemma query_entry
    (s : gmap string (gmap string (gmap string (gmap string A))))
    (e p : string) (f : option RunTagFilter)
    (d : gmap string (gmap string B)) (run tag : string) (v : B) :
  Backend.query view s e p f = Ok d ->
  Backend.entry d run tag = Some v
  <-> exists a, Backend.series s e p run tag = Some a
                /\ v = view a /\ Backend.passes f run tag = true.
Proof.
  unfold Backend.query, Backend.series.
  destruct (s !! e) as [plugins|]; [|discriminate]. intros [= <-]. simpl.
  set (truth := default ∅ (plugins !! p)).
  assert (Htruth : forall a,
            (plugins !! p ≫= fun runs => Backend.entry runs run tag) = Some a
            <-> Backend.entry truth run tag = Some a).
  { intros a. subst truth. destruct (plugins !! p); simpl; [done|].
    unfold Backend.entry. by rewrite lookup_empty. }
  unfold Backend.entry at 1. rewrite lookup_fmap.
  destruct (Backend.restrict f truth !! run) as [tags|] eqn:Hrun; simpl.
  - rewrite lookup_fmap. split.
    + destruct (tags !! tag) as [a|] eqn:Htag; [|done]. intros [= <-].
      exists a. rewrite Htruth.
      assert (Ha : Backend.entry (Backend.restrict f truth) run tag = Some a)
        by (unfold Backend.entry; by rewrite Hrun).
      apply restrict_entry in Ha as [? ?]. done.
    + intros (a & Ha & -> & Hp). apply Htruth in Ha.
      assert (Hr : Backend.entry (Backend.restrict f truth) run tag = Some a)
        by by apply restrict_entry.
      unfold Backend.entry in Hr. rewrite Hrun in Hr. simpl in Hr.
      by rewrite Hr.
  - split; [done|]. intros (a & Ha & -> & Hp). apply Htruth in Ha.
    assert (Hr : Backend.entry (Backend.restrict f truth) run tag = Some a)
      by by apply restrict_entry.
    unfold Backend.entry in Hr. by rewrite Hrun in Hr.
Qed.

Lemma query_raises
    (s : gmap string (gmap string (gmap string (gmap string A))))
    (e p : string) (f : option RunTagFilter) :
  raises (Backend.query view s e p f) = raises (Backend.query view s e p None).
Proof. unfold Backend.query. by destruct (s !! e). Qed.

Lemma query_only_narrows
    (s : gmap string (gmap string (gmap string (gmap string A))))
    (e p : string) :
  Backend.only_narrows (Backend.query view s e p) s e p.
Proof.
  intros f. split; [apply query_raises|]. intros d Hd. split; [|split].
  - intros run tag [v Hv].
    apply (query_entry _ _ _ _ _ _ _ _ Hd) in Hv as (a & Ha & _ & Hp).
    split; [by exists a | done].
  - pose proof (query_raises s e p f) as Hr. rewrite Hd in Hr.
    destruct (Backend.query view s e p None) as [d0|] eqn:Hd0;
      [|discriminate].
    exists d0. split; [reflexivity|]. intros run tag v.
    rewrite (query_entry _ _ _ _ _ _ _ _ Hd),
      (query_entry _ _ _ _ _ _ _ _ Hd0).
    split.
    + intros (a & Ha & Hv & Hp). split; [|exact Hp]. by exists a.
    + intros [(a & Ha & Hv & _) Hp]. by exists a.
  - intros run. unfold Backend.query in Hd.
    destruct (s !! e); [|discriminate]. injection Hd as <-.
    rewrite lookup_fmap. intros Hrun.
    apply fmap_Some in Hrun as (tags & Htags & Hempty).
    symmetry in Hempty. apply fmap_empty_inv in Hempty. subst tags.
    by apply restrict_nonempty in Htags.
Qed.

End query.

(** C5, against the reference backend: for [list_scalars], [read_scalars],
    [list_blob_sequences] and [read_blob_sequences], a result holds an
    entry for a run and tag only if data for the pair exists for the
    experiment and the plugin; a filter only removes entries of the
    unfiltered result, and it never makes a call fail that succeeds
    without it, whatever runs and tags it names. *)
Theorem Backend_filter_only_narrows
    (sample : forall D : Type, nat -> list D -> list D) (b : Backend.t)
    (experiment_id plugin_name : string) (downsample : nat) :
  Backend.only_narrows
    (Backend.list_scalars b experiment_id plugin_name)
    (Backend.scalars b) experiment_id plugin_name
  /\ Backend.only_narrows
       (Backend.read_scalars sample b experiment_id plugin_name downsample)
       (Backend.scalars b) experiment_id plugin_name
  /\ Backend.only_narrows
       (Backend.list_blob_sequences b experiment_id plugin_name)
       (Backend.blob_sequences b) experiment_id plugin_name
  /\ Backend.only_narrows
       (Backend.read_blob_sequences
          sample b experiment_id plugin_name downsample)
       (Backend.blob_sequences b) experiment_id plugin_name.
Proof.
  split; [|split; [|split]]; apply query_only_narrows.
Qed.

(** The scenario of the contract: reading with a filter on the run [train]
    returns the three points of [loss]; with a filter on the run [eval],
    which does not exist, the result is empty and nothing is raised. *)
Lemma read_scalars_scenario :
  Backend.read_scalars Backend.keep_first Backend.exp1 "exp1" "scalars" 10
    (Some (RunTagFilter__init__ (Some ["train"]) None))
  = Ok {["train" := {["loss" := Backend.loss_points]}]}
  /\ Backend.read_scalars Backend.keep_first Backend.exp1 "exp1" "scalars" 10
       (Some (RunTagFilter__init__ (Some ["eval"]) None))
     = Ok ∅.
Proof. split; by vm_compute. Qed.

Lemma Backend_filter_only_narrows_witness :
  let f := Some (RunTagFilter__init__ (Some ["train"; "eval"]) (Some ["loss"])) in
  let d : gmap string (gmap string (list (ScalarDatum.t pyval))) :=
    {["train" := {["loss" := Backend.loss_points]}]} in
  Backend.read_scalars Backend.keep_first Backend.exp1 "exp1" "scalars" 10 f
  = Ok d
  /\ Backend.entry d "train" "loss" = Some Backend.loss_points
  /\ Backend.has_data
       (Backend.scalars Backend.exp1) "exp1" "scalars" "train" "loss"
  /\ Backend.passes f "train" "loss" = true.
Proof.
  intros f d.
  assert (Hd : Backend.read_scalars
                 Backend.keep_first Backend.exp1 "exp1" "scalars" 10 f
               = Ok d) by by vm_compute.
  assert (He : Backend.entry d "train" "loss" = Some Backend.loss_points)
    by by vm_compute.
  split; [exact Hd|]. split; [exact He|].
  destruct (Backend_filter_only_narrows
              Backend.keep_first Backend.exp1 "exp1" "scalars" 10)
    as (_ & Hread & _).
  destruct (Hread f) as [_ Hnarrow].
  apply (Hnarrow d Hd). rewrite He. by eexists.
Defined.

(** * Further properties of the module *)

(** ** Symmetry of [==] *)

Lemma float_eqb_sym (f g : float) : PrimFloat.eqb f g = PrimFloat.eqb g f.
Proof.
  rewrite !FloatAxioms.eqb_spec. unfold SFeqb, SFcompare.
  destruct (Prim2SF f) as [s| s | |s m e], (Prim2SF g) as [s'| s' | |s' m' e'];
    try reflexivity;
    try (destruct s; reflexivity); try (destruct s'; reflexivity);
    try (destruct s, s'; reflexivity).
  change (Pos.compare_cont Eq m m') with (Pos.compare m m').
  change (Pos.compare_cont Eq m' m) with (Pos.compare m' m).
  rewrite (Z.compare_antisym e e'), (Pos.compare_antisym m m').
  destruct s, s', (e ?= e'), (m ?= m')%positive; reflexivity.
Qed.

Lemma atom_eq_sym (a b : pyval) : atom_eq a b = atom_eq b a.
Proof.
  destruct a, b; simpl; try reflexivity;
    try apply Z.eqb_sym; try apply float_eqb_sym;
    apply bool_decide_ext; split; congruence.
Qed.

Lemma Forall2_flip_with {A : Type} (P : A -> Prop) (R R' : A -> A -> Prop)
    (xs ys : list A) :
  (forall x y, P x -> R x y -> R' y x) ->
  Forall P xs -> Forall2 R xs ys -> Forall2 R' ys xs.
Proof.
  intros HR HP H2. revert HP.
  induction H2 as [|x y xs ys Hxy _ IH]; intros HP; [constructor|].
  apply Forall_cons in HP as [Hx HP]. constructor; eauto.
Qed.

Lemma Forall2_py_eq_sym (xs ys : list pyval) :
  Forall (fun x => forall y, py_eq x y = py_eq y x) xs ->
  Forall2 (fun x y => py_eq x y = true) xs ys
  <-> Forall2 (fun y x => py_eq y x = true) ys xs.
Proof.
  intros IH. split.
  - apply (Forall2_flip_with _ _ _ _ _ (fun x y Hx Hxy =>
      eq_trans (eq_sym (Hx y)) Hxy) IH).
  - intros H. apply Forall2_flip in H.
    revert IH. induction H as [|x y xs' ys' Hxy _ IHF]; intros IH;
      [constructor|].
    apply Forall_cons in IH as [Hx IH]. constructor; [|by apply IHF].
    by rewrite Hx.
Qed.

(** X1: [==] is symmetric on all values: [a == b] and [b == a] give the
    same answer, in particular for instances of the value classes, whose
    [__eq__] answers [False] for a value of another type on either side. *)
Theorem py_eq_sym (a b : pyval) : py_eq a b = py_eq b a.
Proof.
  revert b. induction a as [a Ha | xs IH | a Ha IH] using pyval_ind;
    intros b.
  - destruct a; try discriminate Ha; destruct b; try reflexivity;
      match goal with
      | |- py_eq ?x ?y = _ => exact (atom_eq_sym x y)
      end.
  - destruct b; try reflexivity.
    apply Bool.eq_iff_eq_true. rewrite !py_eq_tuple.
    by apply Forall2_py_eq_sym.
  - destruct (decide (type_name a = type_name b)) as [Hty|Hty].
    + assert (Hb : is_value_object b = true)
        by (destruct a; try discriminate Ha; destruct b; try discriminate Hty;
            reflexivity).
      apply Bool.eq_iff_eq_true.
      rewrite (py_eq_fields a b Ha Hty), (py_eq_fields b a Hb (eq_sym Hty)).
      by apply Forall2_py_eq_sym.
    + destruct (py_eq_other_type a b Ha Hty) as [-> ->]. reflexivity.
Qed.

(** ** What the hash sees, and how deep equality goes *)

Lemma Forall2_py_eq_hash (H : hash_impl) (xs ys : list pyval) :
  builtin_hash_consistent H ->
  Forall2 (fun x y => py_eq x y = true) xs ys ->
  map (py_hash H) xs = map (py_hash H) ys.
Proof.
  intros HH. induction 1 as [|x y xs ys Hxy _ IH]; simpl; [reflexivity|].
  f_equal; [by apply py_eq_py_hash | exact IH].
Qed.

(** X2: the hash of a value object depends on its field values only, not
    on its class: two value objects whose fields compare equal pairwise
    have the same hash, also when they are instances of different classes
    (a [Run] and a [ScalarDatum] with the same three values, say) and so
    compare unequal. *)
Theorem value_object_hash_ignores_class (H : hash_impl) (a b : pyval) :
  builtin_hash_consistent H ->
  is_value_object a = true ->
  is_value_object b = true ->
  Forall2 (fun x y => py_eq x y = true) (fields a) (fields b) ->
  py_hash H a = py_hash H b
  /\ (type_name a <> type_name b -> py_eq a b = false).
Proof.
  intros HH Ha Hb Hf. split.
  - rewrite !py_hash_fields by assumption. f_equal.
    by apply Forall2_py_eq_hash.
  - intros Hty. by apply py_eq_other_type.
Qed.

Lemma value_object_hash_ignores_class_witness :
  let a := VRun (Run.Build_t (VInt 1) (VStr "x") VNone) in
  let b := VScalarDatum (ScalarDatum.Build_t (VFloat 1) (VStr "x") VNone) in
  py_hash sample_hash a = py_hash sample_hash b
  /\ (type_name a <> type_name b -> py_eq a b = false).
Proof.
  intros a b.
  apply (value_object_hash_ignores_class sample_hash a b
           sample_hash_consistent); [reflexivity | reflexivity |].
  repeat constructor.
Defined.


(** ** The text of [repr] *)

(** X4: the [repr] of a value object is the name of its class followed,
    between parentheses, by [name=repr(value)] for every field in the
    order of the constructor, joined by a comma and a space; so the
    [repr]s of instances of different value classes never coincide, and
    neither does the [repr] of a [RunTagFilter] with any of them,
    whatever the [repr] of the field values. *)
Theorem py_repr_names_class
    (atom_repr : pyval -> string) (a b : pyval) :
  is_value_object a = true ->
  is_value_object b = true ->
  py_repr atom_repr a
  = type_name a +:+ "(" +:+
    String.concat ", "
      (zip_with (fun name v => name +:+ "=" +:+ py_repr atom_repr v)
         (field_names a) (fields a))
    +:+ ")"
  /\ (type_name a <> type_name b ->
      py_repr atom_repr a <> py_repr atom_repr b)
  /\ (forall (set_repr : option (gset string) -> string) (f : RunTagFilter),
        RunTagFilter__repr__ set_repr f <> py_repr atom_repr a).
Proof.
  intros Ha Hb. split; [|split].
  - by destruct a.
  - intros Hty.
    destruct a; try discriminate Ha; destruct b; try discriminate Hb;
      try (exfalso; apply Hty; reflexivity);
      intros Heq; simpl in Heq; discriminate Heq.
  - intros set_repr f.
    destruct a; try discriminate Ha; intros Heq; simpl in Heq;
      discriminate Heq.
Qed.

Lemma py_repr_names_class_witness :
  let atom_repr (v : pyval) : string :=
    match v with VStr s => "'" +:+ s +:+ "'" | _ => "None" end in
  let a := VBlobReference (BlobReference.Build_t VNone (VStr "k1")) in
  let b := VRun (Run.Build_t (VStr "r") (VStr "train") VNone) in
  py_repr atom_repr a = "BlobReference(blob_key='k1', url=None)"
  /\ py_repr atom_repr a <> py_repr atom_repr b.
Proof.
  intros atom_repr a b.
  destruct (py_repr_names_class atom_repr a b eq_refl eq_refl)
    as (Hfmt & Hne & _).
  split; [exact Hfmt | apply Hne; discriminate].
Defined.

(** ** Abstract methods along a chain of subclasses *)

(** X5: whether a class under [DataProvider] can be instantiated is decided
    by method resolution alone, through any chain of subclasses: the call
    succeeds iff no name resolves to an abstract method.  So a class
    between [DataProvider] and a backend may leave an abstract operation
    to its own subclass, and a subclass that declares an operation
    abstract again cannot be instantiated. *)
Theorem instantiate_iff_nothing_abstract (c : pyclass) :
  (instantiate c = Ok (class_name c)
   <-> forall op : string, isabstractmethod c op = false)
  /\ (instantiate c = Raise TypeError
      <-> exists op : string, isabstractmethod c op = true)
  /\ (forall (name : string) (namespace : gmap string member) (op : string),
        isabstractmethod (Class name (Some c) namespace) op
        = match namespace !! op with
          | Some m => is_abstract m
          | None => isabstractmethod c op
          end).
Proof.
  assert (Hempty : abstractmethods c = ∅
                   <-> forall op, isabstractmethod c op = false).
  { split.
    - intros He op. destruct (isabstractmethod c op) eqn:Ha; [|reflexivity].
      apply abstractmethods_resolve in Ha. rewrite He in Ha.
      by apply not_elem_of_empty in Ha.
    - intros Hall. apply set_eq. intros op. split.
      + intros Hin%abstractmethods_resolve. by rewrite Hall in Hin.
      + intros Hin. by apply not_elem_of_empty in Hin. }
  unfold instantiate. split; [|split].
  - case_bool_decide as He; [|split; [discriminate|]].
    + split; [intros _; by apply Hempty | reflexivity].
    + intros Hall. by apply Hempty in Hall.
  - case_bool_decide as He.
    + split; [discriminate|]. intros [op Ha].
      apply Hempty with (op := op) in He. congruence.
    + split; [|reflexivity]. intros _.
      destruct (set_choose_or_empty (abstractmethods c)) as [[op Hop]|Hx].
      * exists op. by apply abstractmethods_resolve.
      * apply leibniz_equiv in Hx. done.
  - intros name namespace op. apply isabstractmethod_unfold.
Qed.

(** A provider in two steps: [ReadsRuns] gives a body to [list_runs] only,
    and its subclass [ReadsScalars] to the two scalar operations. *)
Lemma instantiate_two_steps :
  let reads_runs :=
    backend_class "ReadsRuns" (namespace_of [("list_runs", Method false)]) in
  let reads_scalars :=
    Class "ReadsScalars" (Some reads_runs)
      (namespace_of
         [("list_scalars", Method false); ("read_scalars", Method false)]) in
  instantiate reads_runs = Raise TypeError
  /\ instantiate reads_scalars = Ok "ReadsScalars".
Proof. by vm_compute. Qed.

Lemma instantiate_iff_nothing_abstract_witness :
  instantiate
    (backend_class "ReadsRuns" (namespace_of [("list_runs", Method false)]))
  = Raise TypeError.
Proof.
  apply instantiate_iff_nothing_abstract.
  exists "list_scalars". by vm_compute.
Defined.

(** ** Which attributes can be assigned *)

Lemma resolve_root (name : string) (ns : gmap string member) (op : string) :
  resolve (Class name None ns) op
  = match ns !! op with Some m => Some (name, m) | None => None end.
Proof. reflexivity. Qed.

Ltac resolve_by_cases :=
  unfold namespace_of;
  rewrite ?resolve_unfold, ?resolve_root;
  rewrite ?list_to_map_cons, ?list_to_map_nil;
  rewrite ?lookup_insert, ?lookup_empty;
  repeat (case_decide; [subst|]).

Ltac managed_name :=
  match goal with
  | |- ?b = true <-> _ =>
      replace b with false by (by vm_compute)
  end.

Ltac settle_names :=
  rewrite ?elem_of_cons, ?elem_of_nil;
  split;
  [ intros; try discriminate; auto 12
  | intros Hor; try reflexivity; exfalso;
    repeat (destruct Hor as [Hor|Hor]; [congruence|]);
    try congruence; try exact Hor ].

Lemma setattr_Run (name : string) :
  accepted (setattr Run_class name) = true
  <-> name ∈ ["_run_id"; "_run_name"; "_start_time"].
Proof.
  destruct (decide (name = "__class__")) as [->|Hc];
    [managed_name; settle_names|].
  unfold setattr, interpreter_managed.
  replace (has_dict Run_class) with false by (by vm_compute).
  rewrite (bool_decide_eq_false_2 _ Hc). cbn [andb orb accepted].
  unfold Run_class, Run_class, object_class.
  resolve_by_cases; settle_names.
Qed.

Lemma setattr_ScalarDatum (name : string) :
  accepted (setattr ScalarDatum_class name) = true
  <-> name ∈ ["_step"; "_wall_time"; "_value"].
Proof.
  destruct (decide (name = "__class__")) as [->|Hc];
    [managed_name; settle_names|].
  unfold setattr, interpreter_managed.
  replace (has_dict ScalarDatum_class) with false by (by vm_compute).
  rewrite (bool_decide_eq_false_2 _ Hc). cbn [andb orb accepted].
  unfold ScalarDatum_class, ScalarDatum_class, object_class.
  resolve_by_cases; settle_names.
Qed.

Lemma setattr_BlobSequenceTimeSeries (name : string) :
  accepted (setattr BlobSequenceTimeSeries_class name) = true
  <-> name ∈ ["_latest_max_index"; "_max_step"; "_max_wall_time";
              "_plugin_content"; "_description"; "_display_name"].
Proof.
  destruct (decide (name = "__class__")) as [->|Hc];
    [managed_name; settle_names|].
  unfold setattr, interpreter_managed.
  replace (has_dict BlobSequenceTimeSeries_class) with false by (by vm_compute).
  rewrite (bool_decide_eq_false_2 _ Hc). cbn [andb orb accepted].
  unfold BlobSequenceTimeSeries_class, _TimeSeries_class, object_class.
  resolve_by_cases; settle_names.
Qed.

Lemma setattr_BlobReference (name : string) :
  accepted (setattr BlobReference_class name) = true
  <-> name ∈ ["_url"; "_blob_key"].
Proof.
  destruct (decide (name = "__class__")) as [->|Hc];
    [managed_name; settle_names|].
  unfold setattr, interpreter_managed.
  replace (has_dict BlobReference_class) with false by (by vm_compute).
  rewrite (bool_decide_eq_false_2 _ Hc). cbn [andb orb accepted].
  unfold BlobReference_class, BlobReference_class, object_class.
  resolve_by_cases; settle_names.
Qed.

Lemma setattr_BlobSequenceDatum (name : string) :
  accepted (setattr BlobSequenceDatum_class name) = true
  <-> name ∈ ["_step"; "_wall_time"; "_values"].
Proof.
  destruct (decide (name = "__class__")) as [->|Hc];
    [managed_name; settle_names|].
  unfold setattr, interpreter_managed.
  replace (has_dict BlobSequenceDatum_class) with false by (by vm_compute).
  rewrite (bool_decide_eq_false_2 _ Hc). cbn [andb orb accepted].
  unfold BlobSequenceDatum_class, BlobSequenceDatum_class, object_class.
  resolve_by_cases; settle_names.
Qed.

Lemma setattr_ScalarTimeSeries (name : string) :
  refused (setattr ScalarTimeSeries_class name) = true
  <-> name ∈ ["max_step"; "max_wall_time"; "plugin_content"; "description";
              "display_name"].
Proof.
  destruct (decide (name = "__class__")) as [->|Hc];
    [managed_name; settle_names|].
  destruct (decide (name = "__dict__")) as [->|Hd];
    [managed_name; settle_names|].
  destruct (decide (name = "__weakref__")) as [->|Hw];
    [managed_name; settle_names|].
  unfold setattr, interpreter_managed.
  replace (has_dict ScalarTimeSeries_class) with true by (by vm_compute).
  rewrite (bool_decide_eq_false_2 _ Hc), (bool_decide_eq_false_2 _ Hd),
    (bool_decide_eq_false_2 _ Hw).
  cbn [andb orb refused].
  unfold ScalarTimeSeries_class, _TimeSeries_class, object_class.
  resolve_by_cases; settle_names.
Qed.

Lemma setattr_RunTagFilter (name : string) :
  refused (setattr RunTagFilter_class name) = true
  <-> name ∈ ["runs"; "tags"].
Proof.
  destruct (decide (name = "__class__")) as [->|Hc];
    [managed_name; settle_names|].
  destruct (decide (name = "__dict__")) as [->|Hd];
    [managed_name; settle_names|].
  destruct (decide (name = "__weakref__")) as [->|Hw];
    [managed_name; settle_names|].
  unfold setattr, interpreter_managed.
  replace (has_dict RunTagFilter_class) with true by (by vm_compute).
  rewrite (bool_decide_eq_false_2 _ Hc), (bool_decide_eq_false_2 _ Hd),
    (bool_decide_eq_false_2 _ Hw).
  cbn [andb orb refused].
  unfold RunTagFilter_class, RunTagFilter_class, object_class.
  resolve_by_cases; settle_names.
Qed.

(** X6: the value objects are read-only through their properties only.
    On an instance of [Run], [ScalarDatum], [BlobSequenceTimeSeries],
    [BlobReference] or [BlobSequenceDatum] an assignment [obj.name = v] is
    accepted exactly for the names of the slots of the class, so the
    fields can be overwritten through their underscore names and no other
    attribute can be set.  On [ScalarTimeSeries], which declares no
    [__slots__], and on [RunTagFilter], the assignment is refused with
    [AttributeError] exactly for the names of the properties. *)
Theorem setattr_only_slots (name : string) :
  (accepted (setattr Run_class name) = true
   <-> name ∈ ["_run_id"; "_run_name"; "_start_time"])
  /\ (accepted (setattr ScalarDatum_class name) = true
   <-> name ∈ ["_step"; "_wall_time"; "_value"])
  /\ (accepted (setattr BlobSequenceTimeSeries_class name) = true
   <-> name ∈ ["_latest_max_index"; "_max_step"; "_max_wall_time";
              "_plugin_content"; "_description"; "_display_name"])
  /\ (accepted (setattr BlobReference_class name) = true
   <-> name ∈ ["_url"; "_blob_key"])
  /\ (accepted (setattr BlobSequenceDatum_class name) = true
   <-> name ∈ ["_step"; "_wall_time"; "_values"])
  /\ (refused (setattr ScalarTimeSeries_class name) = true
   <-> name ∈ ["max_step"; "max_wall_time"; "plugin_content"; "description";
              "display_name"])
  /\ (refused (setattr RunTagFilter_class name) = true
   <-> name ∈ ["runs"; "tags"]).
Proof.
  split; [apply setattr_Run|].
  split; [apply setattr_ScalarDatum|].
  split; [apply setattr_BlobSequenceTimeSeries|].
  split; [apply setattr_BlobReference|].
  split; [apply setattr_BlobSequenceDatum|].
  split; [apply setattr_ScalarTimeSeries | apply setattr_RunTagFilter].
Qed.

(** ** What [RunTagFilter] makes of its arguments *)







(** X8: a filter can be copied through its properties: constructing a
    [RunTagFilter] from the [runs] and [tags] of a filter, each iterated
    in whatever order, gives a filter with the same [runs] and [tags]. *)
Theorem RunTagFilter_copy
    (f : RunTagFilter) (runs tags : option (list string)) :
  iterates (RunTagFilter_runs f) runs ->
  iterates (RunTagFilter_tags f) tags ->
  RunTagFilter__init__ runs tags = f
  /\ RunTagFilter_runs (RunTagFilter__init__ runs tags) = RunTagFilter_runs f
  /\ RunTagFilter_tags (RunTagFilter__init__ runs tags) = RunTagFilter_tags f.
Proof.
  assert (Hset : forall (o : option (gset string)) (a : option (list string)),
            iterates o a ->
            match a with None => None | Some l => Some (frozenset l) end = o).
  { intros [s|] [l|]; simpl; try done. intros [_ Hl]. f_equal.
    apply set_eq. intros x. unfold frozenset.
    by rewrite elem_of_list_to_set. }
  intros Hr Ht. destruct f as [fr ft]. simpl in *.
  unfold RunTagFilter__init__, RunTagFilter_runs, RunTagFilter_tags. simpl.
  rewrite (Hset _ _ Hr), (Hset _ _ Ht). by repeat split.
Qed.

Lemma RunTagFilter_copy_witness :
  let f := RunTagFilter__init__ (Some ["b"; "a"; "b"]) None in
  RunTagFilter__init__ (Some ["a"; "b"]) None = f.
Proof.
  intros f. apply (RunTagFilter_copy f (Some ["a"; "b"]) None).
  - split.
    + apply (bool_decide_unpack (NoDup ["a"; "b"])). by vm_compute.
    + intros x. unfold f, frozenset. simpl.
      rewrite !elem_of_union, !elem_of_singleton, !elem_of_cons,
        elem_of_nil, elem_of_empty. tauto.
  - exact I.
Defined.

(** ** Transitivity of [==] *)

Lemma digits2_pos_size (m : positive) : digits2_pos m = Pos.size m.
Proof. induction m; simpl; congruence. Qed.

Lemma size_bounds (m : positive) :
  2 ^ (Z.pos (Pos.size m) - 1) <= Z.pos m < 2 ^ Z.pos (Pos.size m).
Proof.
  split.
  - pose proof (Pos.size_le m) as H.
    assert (H' : 2 ^ Z.pos (Pos.size m) <= 2 * Z.pos m).
    { change (2 * Z.pos m) with (Z.pos m~0). rewrite <- Pos2Z.inj_pow.
      exact H. }
    replace (Z.pos (Pos.size m)) with (Z.succ (Z.pos (Pos.size m) - 1)) in H'
      by lia.
    rewrite Z.pow_succ_r in H' by lia. lia.
  - pose proof (Pos.size_gt m) as H.
    change 2 with (Z.pos 2). rewrite <- Pos2Z.inj_pow. exact H.
Qed.

Lemma size_shift (m m' : positive) (k : Z) :
  0 <= k -> Z.pos m = Z.pos m' * 2 ^ k ->
  Z.pos (Pos.size m) = Z.pos (Pos.size m') + k.
Proof.
  intros Hk Hm.
  destruct (size_bounds m) as [Hl Hu], (size_bounds m') as [Hl' Hu'].
  set (d := Z.pos (Pos.size m)) in *. set (d' := Z.pos (Pos.size m')) in *.
  assert (Hd : 1 <= d) by (subst d; lia).
  assert (Hd' : 1 <= d') by (subst d'; lia).
  assert (Hp : 0 < 2 ^ k) by (apply Z.pow_pos_nonneg; lia).
  assert (Hl2 : 2 ^ (d' - 1 + k) <= Z.pos m).
  { rewrite Z.pow_add_r by lia. rewrite Hm. nia. }
  assert (Hu2 : Z.pos m < 2 ^ (d' + k)).
  { rewrite Z.pow_add_r by lia. rewrite Hm. nia. }
  destruct (Z.lt_trichotomy d (d' + k)) as [Hlt|[Heq|Hgt]]; [|exact Heq|].
  - assert (2 ^ d <= 2 ^ (d' - 1 + k)) by (apply Z.pow_le_mono_r; lia). lia.
  - assert (2 ^ (d' + k) <= 2 ^ (d - 1)) by (apply Z.pow_le_mono_r; lia). lia.
Qed.

Lemma canonical_unique (m m' : positive) (e e' : Z) :
  canonical_mantissa prec emax m e = true ->
  canonical_mantissa prec emax m' e' = true ->
  e' <= e -> Z.pos m' = Z.pos m * 2 ^ (e - e') ->
  m = m' /\ e = e'.
Proof.
  unfold canonical_mantissa.
  intros Hc%Z.eqb_eq Hc'%Z.eqb_eq He Hm.
  rewrite digits2_pos_size in Hc, Hc'.
  pose proof (size_shift m' m (e - e') ltac:(lia) Hm) as Hs.
  assert (Hsum : Z.pos (Pos.size m) + e = Z.pos (Pos.size m') + e') by lia.
  assert (Hee : e = e') by (rewrite Hsum in Hc; congruence).
  split; [|exact Hee]. subst e'. rewrite Z.sub_diag in Hm. simpl in Hm. lia.
Qed.

Lemma finite_int_value (v e n : Z) :
  (if 0 <=? e then Some (v * 2 ^ e)
   else if v mod 2 ^ (- e) =? 0 then Some (v / 2 ^ (- e)) else None)
  = Some n ->
  n * 2 ^ Z.max 0 (- e) = v * 2 ^ Z.max 0 e.
Proof.
  destruct (0 <=? e) eqn:He.
  - apply Z.leb_le in He. intros [= <-].
    rewrite (Z.max_l 0 (- e)), (Z.max_r 0 e) by lia.
    simpl. lia.
  - apply Z.leb_gt in He.
    destruct (v mod 2 ^ (- e) =? 0) eqn:Hmod; [|discriminate].
    apply Z.eqb_eq in Hmod. intros [= <-].
    assert (Hp : 0 < 2 ^ (- e)) by (apply Z.pow_pos_nonneg; lia).
    rewrite (Z.max_r 0 (- e)), (Z.max_l 0 e) by lia.
    pose proof (Z.div_mod v (2 ^ (- e)) ltac:(lia)) as Hdm.
    rewrite Hmod in Hdm. rewrite Z.pow_0_r. lia.
Qed.

Lemma finite_same_value (s s' : bool) (m m' : positive) (e e' n : Z) :
  bounded prec emax m e = true ->
  bounded prec emax m' e' = true ->
  n * 2 ^ Z.max 0 (- e) = signed s m * 2 ^ Z.max 0 e ->
  n * 2 ^ Z.max 0 (- e') = signed s' m' * 2 ^ Z.max 0 e' ->
  e' <= e ->
  s = s' /\ m = m' /\ e = e'.
Proof.
  unfold bounded. intros [Hc _]%andb_true_iff [Hc' _]%andb_true_iff Hn Hn' He.
  set (a := Z.max 0 (- e)) in *. set (b := Z.max 0 e) in *.
  set (a' := Z.max 0 (- e')) in *. set (b' := Z.max 0 e') in *.
  assert (Hab : b - a = e) by (subst a b; lia).
  assert (Hab' : b' - a' = e') by (subst a' b'; lia).
  assert (Ha : 0 <= a) by (subst a; lia).
  assert (Hb : 0 <= b) by (subst b; lia).
  assert (Ha' : 0 <= a') by (subst a'; lia).
  assert (Hb' : 0 <= b') by (subst b'; lia).
  assert (Hcross : signed s m * 2 ^ (b + a') = signed s' m' * 2 ^ (b' + a)).
  { rewrite !Z.pow_add_r by lia.
    transitivity (n * 2 ^ a * 2 ^ a'); [rewrite Hn; ring|].
    transitivity (n * 2 ^ a' * 2 ^ a); [ring|]. rewrite Hn'. ring. }
  replace (b + a') with (b' + a + (e - e')) in Hcross by lia.
  rewrite Z.pow_add_r in Hcross by lia.
  assert (Hq : 0 < 2 ^ (b' + a)) by (apply Z.pow_pos_nonneg; lia).
  assert (Hk : 0 < 2 ^ (e - e')) by (apply Z.pow_pos_nonneg; lia).
  assert (Hv : signed s' m' = signed s m * 2 ^ (e - e')) by nia.
  assert (Hs : s = s').
  { destruct s, s'; simpl in Hv; try reflexivity; exfalso; nia. }
  subst s'. split; [reflexivity|].
  apply (canonical_unique m m' e e' Hc Hc' He).
  destruct s; simpl in Hv; nia.
Qed.

Lemma SFeqb_finite_refl (s : bool) (m : positive) (e : Z) :
  SFeqb (S754_finite s m e) (S754_finite s m e) = true.
Proof.
  unfold SFeqb, SFcompare. rewrite Z.compare_refl.
  change (Pos.compare_cont Eq m m) with (Pos.compare m m).
  rewrite Pos.compare_refl. by destruct s.
Qed.

Lemma SFeqb_true_inv (x y : spec_float) :
  SFeqb x y = true ->
  match x, y with
  | S754_zero _, S754_zero _ => True
  | S754_infinity s, S754_infinity s' => s = s'
  | S754_finite s m e, S754_finite s' m' e' => s = s' /\ m = m' /\ e = e'
  | _, _ => False
  end.
Proof.
  unfold SFeqb, SFcompare.
  destruct x as [s| s | |s m e], y as [s'| s' | |s' m' e'];
    try discriminate; try done;
    try (destruct s; discriminate); try (destruct s'; discriminate).
  - destruct s, s'; try discriminate; reflexivity.
  - destruct s, s'; try discriminate;
      destruct (e ?= e') eqn:He; try discriminate;
      apply Z.compare_eq in He; subst e';
      destruct (Pos.compare_cont Eq m m') eqn:Hm; try discriminate;
      apply Pos.compare_eq in Hm; subst m'; done.
Qed.

Lemma float_eqb_trans (f g h : float) :
  PrimFloat.eqb f g = true -> PrimFloat.eqb g h = true ->
  PrimFloat.eqb f h = true.
Proof.
  rewrite !FloatAxioms.eqb_spec.
  intros Hfg%SFeqb_true_inv Hgh%SFeqb_true_inv.
  destruct (Prim2SF f) as [s| s | |s m e], (Prim2SF g) as [s'| s' | |s' m' e'];
    try done;
    destruct (Prim2SF h) as [s''| s'' | |s'' m'' e'']; try done.
  - subst. by destruct s''.
  - destruct Hfg as (-> & -> & ->), Hgh as (-> & -> & ->).
    apply SFeqb_finite_refl.
Qed.

Lemma float_same_int_value (f g : float) (n : Z) :
  float_int_value f = Some n -> float_int_value g = Some n ->
  PrimFloat.eqb f g = true.
Proof.
  unfold float_int_value. rewrite FloatAxioms.eqb_spec.
  pose proof (Prim2SF_valid f) as Vf. pose proof (Prim2SF_valid g) as Vg.
  destruct (Prim2SF f) as [s| s | |s m e], (Prim2SF g) as [s'| s' | |s' m' e'];
    try discriminate.
  - reflexivity.
  - intros [= <-] Hg. apply finite_int_value in Hg. exfalso.
    assert (0 < 2 ^ Z.max 0 e') by (apply Z.pow_pos_nonneg; lia).
    destruct s'; nia.
  - intros Hf [= <-]. apply finite_int_value in Hf. exfalso.
    assert (0 < 2 ^ Z.max 0 e) by (apply Z.pow_pos_nonneg; lia).
    destruct s; nia.
  - intros Hf%finite_int_value Hg%finite_int_value. simpl in Vf, Vg.
    destruct (Z.le_ge_cases e' e) as [He|He].
    + destruct (finite_same_value s s' m m' e e' n Vf Vg Hf Hg He)
        as (-> & -> & ->).
      apply SFeqb_finite_refl.
    + destruct (finite_same_value s' s m' m e' e n Vg Vf Hg Hf He)
        as (-> & -> & ->).
      apply SFeqb_finite_refl.
Qed.

Lemma float_int_value_eq (n : Z) (f : float) :
  float_int_value f = Some n -> int_eq_float n f = true.
Proof.
  unfold int_eq_float, float_int_value.
  destruct (Prim2SF f) as [s| s | |s m e]; try discriminate.
  - intros [= <-]. reflexivity.
  - cbv zeta. destruct (0 <=? e) eqn:He.
    + intros [= <-]. apply Z.eqb_refl.
    + apply Z.leb_gt in He.
      destruct (_ mod _ =? 0) eqn:Hmod; [|discriminate].
      apply Z.eqb_eq in Hmod. intros [= <-]. apply Z.eqb_eq.
      assert (Hp : 0 < 2 ^ (- e)) by (apply Z.pow_pos_nonneg; lia).
      pose proof (Z.div_mod (if s then Z.neg m else Z.pos m) (2 ^ (- e))
                    ltac:(lia)) as Hdm.
      rewrite Hmod in Hdm. lia.
Qed.

Lemma atom_eq_trans (a b c : pyval) :
  atom_eq a b = true -> atom_eq b c = true -> atom_eq a c = true.
Proof.
  destruct a as [|x|n|f|s|bs| | | | | | |], b as [|y|m|g|t|bt| | | | | | |];
    simpl; try discriminate;
    destruct c as [|z|k|h|u|bu| | | | | | |]; simpl; try discriminate;
    try reflexivity;
    repeat match goal with
           | |- (_ =? _) = true -> _ => intros ?%Z.eqb_eq
           | |- int_eq_float _ _ = true -> _ =>
               intros ?%int_eq_float_value
           | |- bool_decide _ = true -> _ => intros ?%bool_decide_eq_true
           | |- bytes_eqb _ _ = true -> _ =>
               unfold bytes_eqb at 1; intros ?%bool_decide_eq_true
           | |- PrimFloat.eqb _ _ = true -> _ => intros ?
           end;
    try (apply Z.eqb_eq; congruence);
    try (apply float_int_value_eq; congruence);
    try (apply bool_decide_eq_true; congruence);
    try (unfold bytes_eqb; apply bool_decide_eq_true; congruence);
    try (eapply float_same_int_value; eassumption);
    try (eapply float_eqb_trans; eassumption);
    try (apply float_int_value_eq;
         erewrite <- float_eqb_int_value by eassumption; eassumption);
    try (apply float_int_value_eq;
         erewrite float_eqb_int_value by eassumption; eassumption).
Qed.

Lemma Forall2_py_eq_trans (xs ys zs : list pyval) :
  Forall (fun x => forall y z, py_eq x y = true -> py_eq y z = true ->
                               py_eq x z = true) xs ->
  Forall2 (fun x y => py_eq x y = true) xs ys ->
  Forall2 (fun y z => py_eq y z = true) ys zs ->
  Forall2 (fun x z => py_eq x z = true) xs zs.
Proof.
  intros IH Hxy. revert zs IH.
  induction Hxy as [|x y xs ys Hxy _ IHF]; intros zs IH Hyz;
    inversion Hyz as [|? z ? zs' Hyz1 Hyz2]; subst; [constructor|].
  apply Forall_cons in IH as [Hx IH]. constructor; eauto.
Qed.

Lemma py_eq_true_type (a b : pyval) :
  is_value_object a = true -> py_eq a b = true -> type_name a = type_name b.
Proof.
  intros Ha Hab. destruct (decide (type_name a = type_name b)) as [|Hty];
    [done|].
  destruct (py_eq_other_type a b Ha Hty) as [E _]. congruence.
Qed.

(** X9: [==] is transitive on all values, across [bool], [int] and
    [float] fields too (an [int] and a [float] are compared by their exact
    values): if [a == b] and [b == c] then [a == c].  With X1, [==] is an
    equivalence on the value objects that hold no NaN. *)
Theorem py_eq_trans (a b c : pyval) :
  py_eq a b = true -> py_eq b c = true -> py_eq a c = true.
Proof.
  revert b c. induction a as [a Ha | xs IH | a Ha IH] using pyval_ind;
    intros b c Hab Hbc.
  - rewrite (py_eq_atom _ _ Ha) in Hab. rewrite (py_eq_atom _ _ Ha).
    destruct (atom_eq_is_atom _ _ Hab) as [_ Hb].
    rewrite (py_eq_atom _ _ Hb) in Hbc. by eapply atom_eq_trans.
  - destruct b; try discriminate Hab. destruct c; try discriminate Hbc.
    rewrite py_eq_tuple in *. by eapply Forall2_py_eq_trans.
  - pose proof (py_eq_true_type a b Ha Hab) as Hty.
    assert (Hb : is_value_object b = true)
      by (destruct a; try discriminate Ha; destruct b; try discriminate Hty;
          reflexivity).
    pose proof (py_eq_true_type b c Hb Hbc) as Hty'.
    rewrite (py_eq_fields a c Ha (eq_trans Hty Hty')).
    apply (py_eq_fields a b Ha Hty) in Hab.
    apply (py_eq_fields b c Hb Hty') in Hbc.
    by eapply Forall2_py_eq_trans.
Qed.

Lemma py_eq_trans_witness :
  let a := VScalarDatum (ScalarDatum.Build_t (VInt 1) (VFloat 0.5) (VInt 2)) in
  let b := VScalarDatum (ScalarDatum.Build_t (VFloat 1) (VFloat 0.5) (VFloat 2)) in
  let c := VScalarDatum (ScalarDatum.Build_t (VBool true) (VFloat 0.5) (VInt 2)) in
  py_eq a c = true.
Proof.
  intros a b c. apply (py_eq_trans a b c); reflexivity.
Defined.

(** ** Value objects against built-in values *)

(** X10: an instance of a value class equals no value that is not an
    instance of a value class, whichever operand comes first: not [None],
    not a number or a string, and not the tuple of its own fields, with
    which it nevertheless shares its hash. *)
Theorem value_object_ne_builtin (H : hash_impl) (a b : pyval) :
  is_value_object a = true ->
  is_value_object b = false ->
  py_eq a b = false
  /\ py_eq b a = false
  /\ py_eq a (VTuple (fields a)) = false
  /\ py_hash H a = py_hash H (VTuple (fields a)).
Proof.
  intros Ha Hb.
  assert (Hne : forall v, is_value_object v = false ->
                          py_eq a v = false /\ py_eq v a = false).
  { intros v Hv. apply py_eq_other_type; [exact Ha|].
    destruct a; try discriminate Ha; destruct v; try discriminate Hv;
      discriminate. }
  destruct (Hne b Hb) as [Hab Hba].
  destruct (Hne (VTuple (fields a)) eq_refl) as [Hat _].
  repeat split; try assumption. by apply py_hash_fields.
Qed.

Lemma value_object_ne_builtin_witness :
  let a := VRun (Run.Build_t (VStr "id") (VStr "train") VNone) in
  py_eq a VNone = false
  /\ py_eq VNone a = false
  /\ py_eq a (VTuple (fields a)) = false
  /\ py_hash sample_hash a = py_hash sample_hash (VTuple (fields a)).
Proof.
  intros a. apply (value_object_ne_builtin sample_hash a VNone); reflexivity.
Defined.
